(** * TensorsToSegmentationCalculator

    A shallow embedding of
    [mediapipe/calculators/tensor/tensors_to_segmentation_calculator.cc]
    and the properties of its routing, validation and lazy construction of
    converters.

    The calculator is a stateful object: the loaded options and two cached
    converters.  Its member functions are embedded in a small monad that
    threads the object, stops at the first non-OK status, and logs every
    call the code makes, in the order of the source.  The converters, their
    factories and the images are external: one invocation carries what they
    answer during that invocation. *)

From Stdlib Require Import String.
From Stdlib Require Import List ZArith Bool Lia.
Import ListNotations.

Set Implicit Arguments.
Open Scope Z_scope.

(* ===================================================================== *)
(** ** Statuses *)

Module Status.

(** The canonical error codes of [absl::Status] (OK is [OkStatus]). *)
Inductive StatusCode : Type :=
| kCancelled | kUnknown | kInvalidArgument | kDeadlineExceeded | kNotFound
| kAlreadyExists | kPermissionDenied | kResourceExhausted
| kFailedPrecondition | kAborted | kOutOfRange | kUnimplemented | kInternal
| kUnavailable | kDataLoss | kUnauthenticated.

Inductive Status : Type :=
| OkStatus
| Error (c : StatusCode).

(** [absl::StatusOr<A>]. *)
Inductive StatusOr (A : Type) : Type :=
| Value (a : A)
| NotOk (c : StatusCode).
Arguments NotOk {A} c.

(** Modelled from the spec: the code of the status built by a failed
    [RET_CHECK] or [RET_CHECK_EQ] ([ret_check.h] is not among the sources).
    Sections 4.1 and 7 of the spec classify every failed validation check
    as InvalidArgument. *)
Definition RET_CHECK_code : StatusCode := kInvalidArgument.

(** Modelled from the spec: the code of the status built by
    [RET_CHECK_FAIL()] ([ret_check.h] is not among the sources).  Sections
    4.3 and 7 of the spec classify a backend that is not compiled in as
    FailedPrecondition. *)
Definition RET_CHECK_FAIL_code : StatusCode := kFailedPrecondition.

End Status.
Export Status.

(* ===================================================================== *)
(** ** Data model *)

(** [Tensor::ElementType] ([tensor.h] is not among the sources; the
    calculator only compares against [kFloat32]). *)
Inductive ElementType : Type :=
| kNone | kFloat16 | kFloat32 | kUInt8 | kInt8 | kInt32 | kChar | kBool.

Definition ElementType_eqb (a b : ElementType) : bool :=
  match a, b with
  | kNone, kNone | kFloat16, kFloat16 | kFloat32, kFloat32 | kUInt8, kUInt8
  | kInt8, kInt8 | kInt32, kInt32 | kChar, kChar | kBool, kBool => true
  | _, _ => false
  end.

(** What the calculator reads of a [Tensor]: [element_type()],
    [shape().dims] (a [std::vector<int>]) and [ready_on_gpu()]. *)
Record Tensor : Type := {
  element_type : ElementType;
  dims : list Z;
  ready_on_gpu : bool
}.

(** [TensorsToSegmentationCalculatorOptions::Activation]. *)
Inductive Activation : Type := NONE | SIGMOID | SOFTMAX.

Inductive GpuOrigin : Type := DEFAULT | CONVENTIONAL | TOP_LEFT.

(** Modelled from the spec: the fields of the options message (the [.proto]
    is not among the sources; section 6 of the spec lists them).  The
    calculator itself reads [activation] only. *)
Record Options : Type := {
  activation : Activation;
  output_layer_index : Z;
  gpu_origin : GpuOrigin
}.

(** The preprocessor configuration of the build, and the answer of
    [tensors_to_segmentation_utils::CanUseGpu()] (the utilities are not
    among the sources, so the answer is a field of the platform).
    [MEDIAPIPE_OPENGL_ES_31] stands for
    [MEDIAPIPE_OPENGL_ES_VERSION >= MEDIAPIPE_OPENGL_ES_31]. *)
Record Platform : Type := {
  CanUseGpu : bool;
  MEDIAPIPE_DISABLE_GPU : bool;
  MEDIAPIPE_OPENGL_ES_31 : bool;
  MEDIAPIPE_METAL_ENABLED : bool;
  MEDIAPIPE_DISABLE_OPENCV : bool
}.

(** The four converter factories the calculator may call. *)
Inductive Factory : Type :=
| CreateGlBufferConverter
| CreateMetalConverter
| CreateGlTextureConverter
| CreateOpenCvConverter.

(** The factory behind [gpu_converter_]: the [#if / #elif / #else] of lines
    119-127. *)
Definition gpu_factory (p : Platform) : Factory :=
  if MEDIAPIPE_OPENGL_ES_31 p then CreateGlBufferConverter
  else if MEDIAPIPE_METAL_ENABLED p then CreateMetalConverter
  else CreateGlTextureConverter.

(** The factory of the variant chosen by [use_gpu]. *)
Definition factory_of (p : Platform) (use_gpu : bool) : Factory :=
  if use_gpu then gpu_factory p else CreateOpenCvConverter.

(** Whether the branch of the variant chosen by [use_gpu] is compiled in. *)
Definition compiled_in (p : Platform) (use_gpu : bool) : bool :=
  if use_gpu then negb (MEDIAPIPE_DISABLE_GPU p)
  else negb (MEDIAPIPE_DISABLE_OPENCV p).

Definition Timestamp : Type := Z.

(** The OUTPUT_SIZE input: the stream may be absent from the graph
    ([HasTag] is false), or connected, and then its packet at this
    timestamp may be empty. *)
Inductive OutputSizeStream : Type :=
| NotConnected
| Connected (packet : option (Z * Z)).

Definition HasTag_OUTPUT_SIZE (s : OutputSizeStream) : bool :=
  match s with
  | NotConnected => false
  | Connected _ => true
  end.

(** The packet of the stream at this timestamp, if any. *)
Definition Tag_OUTPUT_SIZE (s : OutputSizeStream) : option (Z * Z) :=
  match s with
  | NotConnected => None
  | Connected packet => packet
  end.

(** Where a call of [GetHwcFromDims] stands in [Process]: line 212 or line
    229. *)
Inductive Site : Type := InValidation | InDimensions.

(** Why an invocation stops without returning a status: [Packet::Get] on an
    empty packet, [input_tensors[0]] on an empty vector, [->Convert] on a
    null [unique_ptr]. *)
Inductive Crash : Type :=
| GetOnEmptyPacket
| IndexOutOfRange
| NullDereference.

(** How a member function ends: it ran to its end ([OkStatus] for a function
    that returns [absl::Status]), it returned a non-OK status, or it
    crashed. *)
Inductive Outcome (A : Type) : Type :=
| Done (a : A)
| Failed (c : StatusCode)
| Crashed (r : Crash).
Arguments Failed {A} c.
Arguments Crashed {A} r.

Section Calculator.

(** Converters and images are opaque to the calculator. *)
Context {Converter Image : Type}.

(** One invocation as the calculator sees it: the packets of its inputs
    ([None] on TENSORS when [IsEmpty()]), the options of the node, and what
    the external collaborators answer during this invocation.  A factory
    returns an [absl::StatusOr<std::unique_ptr<...>>]: its OK value is a
    pointer, that may be null ([None]). *)
Record CalculatorContext : Type := {
  Inputs_TENSORS : option (list Tensor);
  Inputs_OUTPUT_SIZE : OutputSizeStream;
  InputTimestamp : Timestamp;
  cc_Options : Options;
  Create : Factory -> Options -> StatusOr (option Converter);
  Convert : Converter -> list Tensor -> Z -> Z -> StatusOr Image
}.

(** The data members of [TensorsToSegmentationCalculator]; a null
    [unique_ptr] is [None]. *)
Record Calculator : Type := {
  options_ : Options;
  cpu_converter_ : option Converter;
  gpu_converter_ : option Converter
}.

(** The cache field of the variant chosen by [use_gpu]. *)
Definition converter_ (use_gpu : bool) (calc : Calculator) : option Converter :=
  if use_gpu then gpu_converter_ calc else cpu_converter_ calc.

Definition set_converter_ (use_gpu : bool) (c : option Converter)
    (calc : Calculator) : Calculator :=
  if use_gpu
  then {| options_ := options_ calc; cpu_converter_ := cpu_converter_ calc;
          gpu_converter_ := c |}
  else {| options_ := options_ calc; cpu_converter_ := c;
          gpu_converter_ := gpu_converter_ calc |}.

Definition set_options_ (o : Options) (calc : Calculator) : Calculator :=
  {| options_ := o; cpu_converter_ := cpu_converter_ calc;
     gpu_converter_ := gpu_converter_ calc |}.

(** A freshly constructed calculator: default options, null converters. *)
Definition new_Calculator : Calculator :=
  {| options_ := {| activation := NONE; output_layer_index := 0;
                    gpu_origin := DEFAULT |};
     cpu_converter_ := None; gpu_converter_ := None |}.

(** The calls the code makes, logged in program order: [SetOffset] (line
    181), [CanUseGpu()] (197), [ready_on_gpu()] on the tensor of index [i]
    (200), the two [RET_CHECK]s (209, 210), [GetHwcFromDims] (212, 229), the
    [RET_CHECK_EQ] on the channels (217-223), [Get] on OUTPUT_SIZE (234), a
    factory with its result (120-126, 136), [Convert] with its arguments
    (245, 257), [Add] on MASK (246, 258). *)
Inductive Event : Type :=
| SetOffset_call (d : Z)
| CanUseGpu_call
| ready_on_gpu_call (i : nat)
| RET_CHECK_not_empty
| RET_CHECK_element_type
| GetHwcFromDims_call (at_ : Site)
| RET_CHECK_EQ_channels (tensor_channels expected : Z)
| OUTPUT_SIZE_Get
| Create_call (f : Factory) (r : StatusOr (option Converter))
| Convert_call (use_gpu : bool) (c : Converter) (input_tensors : list Tensor)
               (output_width output_height : Z)
| Outputs_MASK_Add (output_mask : Image) (t : Timestamp).

(* ------------------------------------------------------------------- *)
(** *** The monad of member functions *)

Definition M (A : Type) : Type :=
  Calculator -> Outcome A * Calculator * list Event.

Definition ret {A} (a : A) : M A := fun calc => (Done a, calc, []).

Definition bind {A B} (m : M A) (k : A -> M B) : M B :=
  fun calc =>
    match m calc with
    | (Done a, calc', tr) =>
        match k a calc' with
        | (o, calc'', tr') => (o, calc'', tr ++ tr')
        end
    | (Failed c, calc', tr) => (Failed c, calc', tr)
    | (Crashed r, calc', tr) => (Crashed r, calc', tr)
    end.

Definition call (e : Event) : M unit := fun calc => (Done tt, calc, [e]).
Definition fail {A} (c : StatusCode) : M A := fun calc => (Failed c, calc, []).
Definition crash {A} (r : Crash) : M A := fun calc => (Crashed r, calc, []).
Definition member {A} (f : Calculator -> A) : M A :=
  fun calc => (Done (f calc), calc, []).
Definition assign (f : Calculator -> Calculator) : M unit :=
  fun calc => (Done tt, f calc, []).

(** The status a member function returning [absl::Status] hands back. *)
Definition returned (o : Outcome unit) : option Status :=
  match o with
  | Done _ => Some OkStatus
  | Failed c => Some (Error c)
  | Crashed _ => None
  end.

End Calculator.

Arguments CalculatorContext : clear implicits.
Arguments Calculator : clear implicits.
Arguments Event : clear implicits.
Arguments M : clear implicits.

Declare Scope calc_scope.
Delimit Scope calc_scope with calc.
Notation "x <- m ;; k" := (bind m (fun x => k))
  (at level 61, m at next level, right associativity) : calc_scope.
Notation "m ;; k" := (bind m (fun _ => k))
  (at level 61, right associativity) : calc_scope.
Open Scope calc_scope.

(* ===================================================================== *)
(** ** The utilities *)

(** Modelled from the spec: [tensors_to_segmentation_utils::GetHwcFromDims]
    ([tensors_to_segmentation_utils.h] is declared by an include only).
    Section 4.1: a 3-D shape is read as (height, width, channels); a 4-D
    shape is read as (batch, height, width, channels) and the batch must
    equal 1, else InvalidArgument; any other rank is InvalidArgument. *)
Definition GetHwcFromDims (dims : list Z) : StatusOr (Z * Z * Z) :=
  match dims with
  | [h; w; c] => Value (h, w, c)
  | [b; h; w; c] => if b =? 1 then Value (h, w, c) else NotOk kInvalidArgument
  | _ => NotOk kInvalidArgument
  end.

(* ===================================================================== *)
(** ** The member functions *)

Section Members.

Context {Converter Image : Type}.
Variable p : Platform.

Local Abbreviation M := (M Converter Image).
Local Abbreviation CalculatorContext := (CalculatorContext Converter Image).

(** [MP_ASSIGN_OR_RETURN(lhs, rexpr)]: a non-OK [rexpr] is returned to the
    caller, an OK one yields its value. *)
Definition MP_ASSIGN_OR_RETURN {A} (rexpr : StatusOr A) : M A :=
  match rexpr with
  | Value a => ret a
  | NotOk c => fail c
  end.

(** [RET_CHECK(cond)], logged as [e]. *)
Definition RET_CHECK (e : Event Converter Image) (cond : bool) : M unit :=
  call e ;; if cond then ret tt else fail RET_CHECK_code.

(** [RET_CHECK_FAIL()]. *)
Definition RET_CHECK_FAIL {A} : M A := fail RET_CHECK_FAIL_code.

(** [input_tensors[0]]. *)
Definition index0 (input_tensors : list Tensor) : M Tensor :=
  match input_tensors with
  | [] => crash IndexOutOfRange
  | t :: _ => ret t
  end.

(** [converter->]. *)
Definition deref (ptr : option Converter) : M Converter :=
  match ptr with
  | None => crash NullDereference
  | Some c => ret c
  end.

(** [.Get<std::pair<int, int>>()] on the packet of a connected stream. *)
Definition Get (packet : option (Z * Z)) : M (Z * Z) :=
  call OUTPUT_SIZE_Get ;;
  match packet with
  | None => crash GetOnEmptyPacket
  | Some size => ret size
  end.

(** Lines 115-144. *)
Definition InitConverterIfNecessary (use_gpu : bool) (cc : CalculatorContext)
  : M unit :=
  if use_gpu then
    if MEDIAPIPE_DISABLE_GPU p then RET_CHECK_FAIL
    else
      ptr <- member gpu_converter_ ;;
      match ptr with
      | None =>
          options <- member options_ ;;
          let r := Create cc (gpu_factory p) options in
          call (Create_call (gpu_factory p) r) ;;
          created <- MP_ASSIGN_OR_RETURN r ;;
          assign (set_converter_ true created)
      | Some _ => ret tt
      end
  else
    if MEDIAPIPE_DISABLE_OPENCV p then RET_CHECK_FAIL
    else
      ptr <- member cpu_converter_ ;;
      match ptr with
      | None =>
          options <- member options_ ;;
          let r := Create cc CreateOpenCvConverter options in
          call (Create_call CreateOpenCvConverter r) ;;
          created <- MP_ASSIGN_OR_RETURN r ;;
          assign (set_converter_ false created)
      | Some _ => ret tt
      end.

(** Lines 268-274. *)
Definition LoadOptions (cc : CalculatorContext) : M unit :=
  assign (set_options_ (cc_Options cc)).

(** Lines 180-186. *)
Definition Open (cc : CalculatorContext) : M unit :=
  call (SetOffset_call 0) ;;
  LoadOptions cc.

(** The loop of lines 199-204, from the tensor of index [i] on: it stops at
    the first tensor that is ready on GPU. *)
Fixpoint for_ready_on_gpu (i : nat) (input_tensors : list Tensor) : M bool :=
  match input_tensors with
  | [] => ret false
  | tensor :: rest =>
      call (ready_on_gpu_call i) ;;
      if ready_on_gpu tensor then ret true
      else for_ready_on_gpu (S i) rest
  end.

(** Lines 196-205: the value of [use_gpu]. *)
Definition select_use_gpu (input_tensors : list Tensor) : M bool :=
  call CanUseGpu_call ;;
  if CanUseGpu p then for_ready_on_gpu 0 input_tensors else ret false.

(** Lines 207-226: "Validate tensor channels and activation type." *)
Definition validate (input_tensors : list Tensor) : M unit :=
  RET_CHECK RET_CHECK_not_empty (negb (length input_tensors =? 0)%nat) ;;
  input_tensors_0 <- index0 input_tensors ;;
  RET_CHECK RET_CHECK_element_type
            (ElementType_eqb (element_type input_tensors_0) kFloat32) ;;
  call (GetHwcFromDims_call InValidation) ;;
  hwc <- MP_ASSIGN_OR_RETURN (GetHwcFromDims (dims input_tensors_0)) ;;
  let tensor_channels := snd hwc in
  options <- member options_ ;;
  match activation options with
  | NONE =>
      RET_CHECK (RET_CHECK_EQ_channels tensor_channels 1) (tensor_channels =? 1)
  | SIGMOID =>
      RET_CHECK (RET_CHECK_EQ_channels tensor_channels 1) (tensor_channels =? 1)
  | SOFTMAX =>
      RET_CHECK (RET_CHECK_EQ_channels tensor_channels 2) (tensor_channels =? 2)
  end.

(** Lines 228-237: "Get dimensions." The result is
    [(output_width, output_height)]. *)
Definition output_dimensions (cc : CalculatorContext)
    (input_tensors : list Tensor) : M (Z * Z) :=
  input_tensors_0 <- index0 input_tensors ;;
  call (GetHwcFromDims_call InDimensions) ;;
  hwc <- MP_ASSIGN_OR_RETURN (GetHwcFromDims (dims input_tensors_0)) ;;
  let '(tensor_height, tensor_width, _) := hwc in
  if HasTag_OUTPUT_SIZE (Inputs_OUTPUT_SIZE cc) then
    size <- Get (Tag_OUTPUT_SIZE (Inputs_OUTPUT_SIZE cc)) ;;
    ret (fst size, snd size)
  else ret (tensor_width, tensor_height).

(** Lines 239-263: the branch of the selected variant. *)
Definition delegate (use_gpu : bool) (cc : CalculatorContext)
    (input_tensors : list Tensor) (output_width output_height : Z) : M unit :=
  if use_gpu then
    if MEDIAPIPE_DISABLE_GPU p then RET_CHECK_FAIL
    else
      InitConverterIfNecessary use_gpu cc ;;
      ptr <- member gpu_converter_ ;;
      c <- deref ptr ;;
      call (Convert_call true c input_tensors output_width output_height) ;;
      output_mask <- MP_ASSIGN_OR_RETURN
                       (Convert cc c input_tensors output_width output_height) ;;
      call (Outputs_MASK_Add output_mask (InputTimestamp cc))
  else
    if MEDIAPIPE_DISABLE_OPENCV p then RET_CHECK_FAIL
    else
      InitConverterIfNecessary use_gpu cc ;;
      ptr <- member cpu_converter_ ;;
      c <- deref ptr ;;
      call (Convert_call false c input_tensors output_width output_height) ;;
      output_mask <- MP_ASSIGN_OR_RETURN
                       (Convert cc c input_tensors output_width output_height) ;;
      call (Outputs_MASK_Add output_mask (InputTimestamp cc)).

(** Lines 188-266. *)
Definition Process (cc : CalculatorContext) : M unit :=
  match Inputs_TENSORS cc with
  | None => ret tt
  | Some input_tensors =>
      use_gpu <- select_use_gpu input_tensors ;;
      validate input_tensors ;;
      size <- output_dimensions cc input_tensors ;;
      delegate use_gpu cc input_tensors (fst size) (snd size)
  end.

(** A lifetime of the calculator: [Process] on each invocation in turn.  A
    non-OK status ends only its own invocation; a crash ends the run. *)
Fixpoint run (ccs : list CalculatorContext) (calc : Calculator Converter)
  : Calculator Converter * list (Event Converter Image) :=
  match ccs with
  | [] => (calc, [])
  | cc :: rest =>
      match Process cc calc with
      | (Crashed _, calc', tr) => (calc', tr)
      | (_, calc', tr) =>
          match run rest calc' with
          | (calc'', tr') => (calc'', tr ++ tr')
          end
      end
  end.

End Members.

(* ===================================================================== *)
(** ** Reading the log *)

(** The step of [Process] (or [Open]) a logged call belongs to. *)
Inductive Step : Type :=
| Opening | Selection | Validation | Dimensions | Acquisition | Conversion
| Emission.

Section Log.

Context {Converter Image : Type}.
Local Abbreviation Event := (Event Converter Image).

Definition step_of (e : Event) : Step :=
  match e with
  | SetOffset_call _ => Opening
  | CanUseGpu_call | ready_on_gpu_call _ => Selection
  | RET_CHECK_not_empty | RET_CHECK_element_type
  | GetHwcFromDims_call InValidation | RET_CHECK_EQ_channels _ _ => Validation
  | GetHwcFromDims_call InDimensions | OUTPUT_SIZE_Get => Dimensions
  | Create_call _ _ => Acquisition
  | Convert_call _ _ _ _ _ => Conversion
  | Outputs_MASK_Add _ _ => Emission
  end.

(** The variant a factory builds: [true] for [gpu_converter_]. *)
Definition builds_gpu (f : Factory) : bool :=
  match f with
  | CreateOpenCvConverter => false
  | _ => true
  end.

(** A call of the factory of the variant [use_gpu]. *)
Definition is_Create (use_gpu : bool) (e : Event) : bool :=
  match e with
  | Create_call f _ => Bool.eqb (builds_gpu f) use_gpu
  | _ => false
  end.

(** A call of the factory of the variant [use_gpu] that built a converter. *)
Definition is_Created (use_gpu : bool) (e : Event) : bool :=
  match e with
  | Create_call f (Value (Some _)) => Bool.eqb (builds_gpu f) use_gpu
  | _ => false
  end.

(** A call of [Convert] on the converter of the variant [use_gpu]. *)
Definition is_Convert (use_gpu : bool) (e : Event) : bool :=
  match e with
  | Convert_call g _ _ _ _ => Bool.eqb g use_gpu
  | _ => false
  end.

(** A call of [Convert], of either variant. *)
Definition is_Conversion (e : Event) : bool :=
  match e with
  | Convert_call _ _ _ _ _ => true
  | _ => false
  end.

Definition is_Get (e : Event) : bool :=
  match e with
  | OUTPUT_SIZE_Get => true
  | _ => false
  end.

(** Work on a backend or on the output: construction, conversion,
    emission. *)
Definition is_backend (e : Event) : bool :=
  match step_of e with
  | Acquisition | Conversion | Emission => true
  | _ => false
  end.

(** The calls of the first three blocks of [Process]. *)
Definition early (e : Event) : bool :=
  match step_of e with
  | Selection | Validation | Dimensions => true
  | _ => false
  end.

Definition count (f : Event -> bool) (tr : list Event) : nat :=
  length (filter f tr).

(** The order of the steps in the source: lines 196-205, 207-226, 228-237,
    then the construction, the conversion and the emission of lines
    239-263. *)
Definition source_rank (s : Step) : nat :=
  match s with
  | Opening => 0
  | Selection => 1
  | Validation => 2
  | Dimensions => 3
  | Acquisition => 4
  | Conversion => 5
  | Emission => 6
  end.

Fixpoint nondecreasing (l : list nat) : bool :=
  match l with
  | a :: (b :: _) as rest => (a <=? b)%nat && nondecreasing rest
  | _ => true
  end.

(** The log follows the order given by [rank]. *)
Definition in_order (rank : Step -> nat) (tr : list Event) : bool :=
  nondecreasing (map (fun e => rank (step_of e)) tr).

(** Every [a]-step of the log comes before every [b]-step: no [b]-step
    stands before an [a]-step. *)
Definition precedes (a b : Step) (tr : list Event) : Prop :=
  forall l1 e l2,
    tr = l1 ++ e :: l2 -> step_of e = a ->
    Forall (fun e' => step_of e' <> b) l1.

(** The order of section 4.4 of the spec: validation first, then selection,
    then acquisition. *)
Definition validation_first (tr : list Event) : Prop :=
  precedes Validation Selection tr /\ precedes Selection Acquisition tr.

(** The order of the source: selection (lines 196-205) first, then
    validation (lines 207-226), then acquisition. *)
Definition selection_first (tr : list Event) : Prop :=
  precedes Selection Validation tr /\ precedes Validation Acquisition tr.

End Log.

(* ===================================================================== *)
(** ** Closed forms used by the proofs *)

Section Forms.

Context {Converter Image : Type}.
Variable p : Platform.
Local Abbreviation Calculator := (Calculator Converter).
Local Abbreviation Event := (Event Converter Image).
Local Abbreviation CalculatorContext := (CalculatorContext Converter Image).

(** The value lines 196-205 leave in [use_gpu]. *)
Definition use_gpu_of (input_tensors : list Tensor) : bool :=
  CanUseGpu p && existsb ready_on_gpu input_tensors.

(** The batch passes lines 207-226 under activation [a]. *)
Definition valid (a : Activation) (input_tensors : list Tensor) : bool :=
  match input_tensors with
  | [] => false
  | t0 :: _ =>
      ElementType_eqb (element_type t0) kFloat32 &&
      match GetHwcFromDims (dims t0) with
      | Value (_, _, c) =>
          match a with
          | NONE => c =? 1
          | SIGMOID => c =? 1
          | SOFTMAX => c =? 2
          end
      | NotOk _ => false
      end
  end.

(** The size lines 231-237 compute from the tensor's [(w, h)]; [None] when
    the stream is connected and its packet is empty. *)
Definition output_size_of (cc : CalculatorContext) (w h : Z) : option (Z * Z) :=
  match Inputs_OUTPUT_SIZE cc with
  | NotConnected => Some (w, h)
  | Connected packet => packet
  end.

Definition prepend {A} (tr0 : list Event)
    (r : Outcome A * Calculator * list Event) : Outcome A * Calculator * list Event :=
  match r with
  | (o, calc, tr) => (o, calc, tr0 ++ tr)
  end.

(** [Convert] on the converter [c] of variant [g], and the emission. *)
Definition convert_form (g : bool) (cc : CalculatorContext) (c : Converter)
    (ts : list Tensor) (ow oh : Z) (calc : Calculator)
  : Outcome unit * Calculator * list Event :=
  match Convert cc c ts ow oh with
  | Value mask =>
      (Done tt, calc,
       [Convert_call g c ts ow oh; Outputs_MASK_Add mask (InputTimestamp cc)])
  | NotOk e => (Failed e, calc, [Convert_call g c ts ow oh])
  end.

(** What [delegate] amounts to. *)
Definition delegate_form (g : bool) (cc : CalculatorContext)
    (ts : list Tensor) (ow oh : Z) (calc : Calculator)
  : Outcome unit * Calculator * list Event :=
  if compiled_in p g then
    match converter_ g calc with
    | Some c => convert_form g cc c ts ow oh calc
    | None =>
        let r := Create cc (factory_of p g) (options_ calc) in
        match r with
        | Value (Some c) =>
            prepend [Create_call (factory_of p g) r]
              (convert_form g cc c ts ow oh (set_converter_ g (Some c) calc))
        | Value None =>
            (Crashed NullDereference, calc, [Create_call (factory_of p g) r])
        | NotOk e => (Failed e, calc, [Create_call (factory_of p g) r])
        end
    end
  else (Failed RET_CHECK_FAIL_code, calc, []).


(** [f] applied to the calculator a run leaves. *)
Definition on_state {A} (f : Calculator -> Calculator)
    (r : Outcome A * Calculator * list Event) : Outcome A * Calculator * list Event :=
  match r with
  | (o, calc, tr) => (o, f calc, tr)
  end.

(** [m] neither reads nor writes what [f] changes: running it after [f]
    gives the outcome and the log of running it before, and the calculator
    [f] makes of the one it left. *)
Definition ignores {A} (f : Calculator -> Calculator) (m : M Converter Image A) : Prop :=
  forall calc, m (f calc) = on_state f (m calc).

(** The invocation [cc] brings a batch that selects the variant [g], passes
    validation under the options [o], and has its output size at hand. *)
Definition selects (g : bool) (o : Options) (cc : CalculatorContext) : bool :=
  match Inputs_TENSORS cc with
  | None => false
  | Some ts =>
      Bool.eqb (use_gpu_of ts) g && valid (activation o) ts &&
      match Inputs_OUTPUT_SIZE cc with
      | Connected None => false
      | _ => true
      end
  end.

(** During [cc] the factory of the variant [g] builds a converter. *)
Definition builds (g : bool) (o : Options) (cc : CalculatorContext) : bool :=
  match Create cc (factory_of p g) o with
  | Value (Some _) => true
  | _ => false
  end.

End Forms.

(* ===================================================================== *)
(** ** The contract *)

(** The packet types [GetContract] declares. *)
Inductive PacketType : Type :=
| VectorOfTensor      (* [std::vector<Tensor>] *)
| PairOfInt           (* [std::pair<int, int>] *)
| ImageType.          (* [Image] *)

(** Lines 53-55. *)
Definition kTensorsTag : String.string := "TENSORS"%string.
Definition kOutputSizeTag : String.string := "OUTPUT_SIZE"%string.
Definition kMaskTag : String.string := "MASK"%string.

(** What [GetContract] reads of a [CalculatorContract]: the tags of its
    inputs and of its outputs ([GetTags()], a set of strings), and what the
    two GPU helpers answer when they are asked to update it (the helpers and
    the tag map are not among the sources). *)
Record CalculatorContract : Type := {
  Inputs_GetTags : list String.string;
  Outputs_GetTags : list String.string;
  GlCalculatorHelper_UpdateContract : bool -> Status;
  MPPMetalHelper_updateContract : Status
}.

(** [HasTag(tag)] on a collection with the tags [tags]: membership in
    [GetTags()]. *)
Definition HasTag (tags : list String.string) (tag : String.string) : bool :=
  existsb (String.eqb tag) tags.

(** [GetTags().empty()]. *)
Definition empty (tags : list String.string) : bool :=
  match tags with
  | [] => true
  | _ :: _ => false
  end.

(** The calls [GetContract] makes on the contract and on the helpers: [Set]
    on a tag of the inputs (lines 159, 161) or of the outputs (165), and the
    two [UpdateContract] (169, 172). *)
Inductive ContractEvent : Type :=
| Inputs_Tag_Set (tag : String.string) (t : PacketType)
| Outputs_Tag_Set (tag : String.string) (t : PacketType)
| GlCalculatorHelper_UpdateContract_call (request_gpu_as_optional : bool)
| MPPMetalHelper_updateContract_call.

(** A static function that returns a status and logs its calls. *)
Definition W (A : Type) : Type := (StatusOr A * list ContractEvent)%type.

Definition wret {A} (a : A) : W A := (Value a, []).

Definition wbind {A B} (m : W A) (k : A -> W B) : W B :=
  match m with
  | (Value a, tr) =>
      match k a with
      | (r, tr') => (r, tr ++ tr')
      end
  | (NotOk c, tr) => (NotOk c, tr)
  end.

Definition wcall (e : ContractEvent) : W unit := (Value tt, [e]).

(** [RET_CHECK(cond)] in a static function. *)
Definition W_RET_CHECK (cond : bool) : W unit :=
  if cond then wret tt else (NotOk RET_CHECK_code, []).

(** [MP_RETURN_IF_ERROR(status)]. *)
Definition MP_RETURN_IF_ERROR (s : Status) : W unit :=
  match s with
  | OkStatus => wret tt
  | Error c => (NotOk c, [])
  end.

Declare Scope contract_scope.
Delimit Scope contract_scope with contract.
Notation "m ;; k" := (wbind m (fun _ => k))
  (at level 61, right associativity) : contract_scope.

(** Lines 153-178. *)
Definition GetContract (p : Platform) (cc : CalculatorContract) : W unit :=
  (W_RET_CHECK (negb (empty (Inputs_GetTags cc))) ;;
   W_RET_CHECK (negb (empty (Outputs_GetTags cc))) ;;
   wcall (Inputs_Tag_Set kTensorsTag VectorOfTensor) ;;
   (if HasTag (Inputs_GetTags cc) kOutputSizeTag
    then wcall (Inputs_Tag_Set kOutputSizeTag PairOfInt)
    else wret tt) ;;
   wcall (Outputs_Tag_Set kMaskTag ImageType) ;;
   (if CanUseGpu p then
      if MEDIAPIPE_DISABLE_GPU p then wret tt
      else
        wcall (GlCalculatorHelper_UpdateContract_call true) ;;
        MP_RETURN_IF_ERROR (GlCalculatorHelper_UpdateContract cc true) ;;
        if MEDIAPIPE_METAL_ENABLED p then
          wcall MPPMetalHelper_updateContract_call ;;
          MP_RETURN_IF_ERROR (MPPMetalHelper_updateContract cc)
        else wret tt
    else wret tt))%contract.

(** The status [GetContract] returns. *)
Definition contract_status (r : W unit) : Status :=
  match fst r with
  | Value _ => OkStatus
  | NotOk c => Error c
  end.

(** A call of one of the GPU helpers. *)
Definition is_helper_call (e : ContractEvent) : bool :=
  match e with
  | GlCalculatorHelper_UpdateContract_call _ => true
  | MPPMetalHelper_updateContract_call => true
  | _ => false
  end.

(* ===================================================================== *)
(** ** More readings of the log *)

Section MoreLog.

Context {Converter Image : Type}.

(** A mask handed to the MASK output. *)
Definition is_Add (e : Event Converter Image) : bool :=
  match e with
  | Outputs_MASK_Add _ _ => true
  | _ => false
  end.

End MoreLog.

(* ===================================================================== *)
(** ** The ways an invocation can go *)

Section Ways.

Context {Converter Image : Type}.
Variable p : Platform.
Local Abbreviation Calculator := (Calculator Converter).
Local Abbreviation Event := (Event Converter Image).
Local Abbreviation CalculatorContext := (CalculatorContext Converter Image).

(** A batch that passed validation, with the variant it selects and the
    output size that was computed for it. *)
Record Accepted (cc : CalculatorContext) (calc : Calculator)
    (ts : list Tensor) (g : bool) (ow oh : Z) : Prop := {
  accepted_batch : Inputs_TENSORS cc = Some ts;
  accepted_valid : valid (activation (options_ calc)) ts = true;
  accepted_variant : g = use_gpu_of p ts;
  accepted_size :
    exists t0 rest h w c,
      ts = t0 :: rest /\ GetHwcFromDims (dims t0) = Value (h, w, c) /\
      output_size_of cc w h = Some (ow, oh)
}.

(** How the converter [c] of the variant [g] was acquired, leaving the
    calculator [calc1] and the log [tr1]: it was cached, or the cache was
    empty and the factory built it. *)
Inductive Acquired (cc : CalculatorContext) (calc : Calculator) (g : bool)
    (c : Converter) : Calculator -> list Event -> Prop :=
| Acquired_cached :
    converter_ g calc = Some c ->
    Acquired cc calc g c calc []
| Acquired_built :
    converter_ g calc = None ->
    Create cc (factory_of p g) (options_ calc) = Value (Some c) ->
    Acquired cc calc g c (set_converter_ g (Some c) calc)
             [Create_call (factory_of p g) (Value (Some c))].

(** The ways [Process] ends: outcome, calculator left, log.  [Way_idle] is
    lines 189-191; [Way_invalid] a failure of lines 207-226; [Way_no_size]
    the [Get] of line 234 on an empty packet; [Way_compiled_out] lines 249
    and 261; [Way_null] a factory that returns OK with a null pointer, which
    lines 245 and 257 dereference; [Way_not_built] a factory that fails;
    [Way_not_converted] and [Way_converted] the two results of [Convert]. *)
Inductive Way (cc : CalculatorContext) (calc : Calculator)
  : Outcome unit -> Calculator -> list Event -> Prop :=
| Way_idle :
    Inputs_TENSORS cc = None ->
    Way cc calc (Done tt) calc []
| Way_invalid ts tr0 :
    Inputs_TENSORS cc = Some ts ->
    valid (activation (options_ calc)) ts = false ->
    Forall (fun e => early e = true) tr0 ->
    Way cc calc (Failed kInvalidArgument) calc tr0
| Way_no_size ts tr0 :
    Inputs_TENSORS cc = Some ts ->
    valid (activation (options_ calc)) ts = true ->
    Inputs_OUTPUT_SIZE cc = Connected None ->
    Forall (fun e => early e = true) tr0 ->
    Way cc calc (Crashed GetOnEmptyPacket) calc tr0
| Way_compiled_out ts g ow oh tr0 :
    Accepted cc calc ts g ow oh ->
    compiled_in p g = false ->
    Forall (fun e => early e = true) tr0 ->
    Way cc calc (Failed RET_CHECK_FAIL_code) calc tr0
| Way_null ts g ow oh tr0 :
    Accepted cc calc ts g ow oh ->
    compiled_in p g = true ->
    converter_ g calc = None ->
    Create cc (factory_of p g) (options_ calc) = Value None ->
    Forall (fun e => early e = true) tr0 ->
    Way cc calc (Crashed NullDereference) calc
        (tr0 ++ [Create_call (factory_of p g) (Value None)])
| Way_not_built ts g ow oh tr0 e :
    Accepted cc calc ts g ow oh ->
    compiled_in p g = true ->
    converter_ g calc = None ->
    Create cc (factory_of p g) (options_ calc) = NotOk e ->
    Forall (fun e => early e = true) tr0 ->
    Way cc calc (Failed e) calc
        (tr0 ++ [Create_call (factory_of p g) (NotOk e)])
| Way_not_converted ts g ow oh tr0 c calc1 tr1 e :
    Accepted cc calc ts g ow oh ->
    compiled_in p g = true ->
    Acquired cc calc g c calc1 tr1 ->
    Convert cc c ts ow oh = NotOk e ->
    Forall (fun e => early e = true) tr0 ->
    Way cc calc (Failed e) calc1
        (tr0 ++ tr1 ++ [Convert_call g c ts ow oh])
| Way_converted ts g ow oh tr0 c calc1 tr1 mask :
    Accepted cc calc ts g ow oh ->
    compiled_in p g = true ->
    Acquired cc calc g c calc1 tr1 ->
    Convert cc c ts ow oh = Value mask ->
    Forall (fun e => early e = true) tr0 ->
    Way cc calc (Done tt) calc1
        (tr0 ++ tr1 ++ [Convert_call g c ts ow oh;
                        Outputs_MASK_Add mask (InputTimestamp cc)]).

End Ways.

(* ===================================================================== *)
(** ** Concrete builds, tensors and invocations *)

Module Examples.

(** A build with both backends, GL buffers. *)
Definition gpu_build : Platform :=
  {| CanUseGpu := true; MEDIAPIPE_DISABLE_GPU := false;
     MEDIAPIPE_OPENGL_ES_31 := true; MEDIAPIPE_METAL_ENABLED := false;
     MEDIAPIPE_DISABLE_OPENCV := false |}.

(** A build without OpenCV. *)
Definition no_opencv_build : Platform :=
  {| CanUseGpu := true; MEDIAPIPE_DISABLE_GPU := false;
     MEDIAPIPE_OPENGL_ES_31 := true; MEDIAPIPE_METAL_ENABLED := false;
     MEDIAPIPE_DISABLE_OPENCV := true |}.

Definition sigmoid_options : Options :=
  {| activation := SIGMOID; output_layer_index := 0; gpu_origin := DEFAULT |}.

Definition softmax_options : Options :=
  {| activation := SOFTMAX; output_layer_index := 0; gpu_origin := DEFAULT |}.

(** A host tensor of shape (256, 256, 1). *)
Definition host_tensor : Tensor :=
  {| element_type := kFloat32; dims := [256; 256; 1]; ready_on_gpu := false |}.

(** A device tensor of shape (128, 128, 2). *)
Definition device_tensor : Tensor :=
  {| element_type := kFloat32; dims := [128; 128; 2]; ready_on_gpu := true |}.

(** A host tensor of shape (256, 256, 2). *)
Definition two_channel_tensor : Tensor :=
  {| element_type := kFloat32; dims := [256; 256; 2]; ready_on_gpu := false |}.

(** In the examples a converter is named by the factory that built it, and
    an image by its size. *)
Definition ExConverter : Type := Factory.
Definition ExImage : Type := (Z * Z)%type.

Definition invocation (batch : option (list Tensor)) (size : OutputSizeStream)
    (o : Options) (create : Factory -> Options -> StatusOr (option ExConverter))
  : CalculatorContext ExConverter ExImage :=
  {| Inputs_TENSORS := batch; Inputs_OUTPUT_SIZE := size; InputTimestamp := 0;
     cc_Options := o; Create := create;
     Convert := fun _ _ w h => Value (w, h) |}.

Definition factories_succeed (f : Factory) (_ : Options)
  : StatusOr (option ExConverter) :=
  Value (Some f).

Definition factories_fail (_ : Factory) (_ : Options)
  : StatusOr (option ExConverter) :=
  NotOk kUnavailable.

(** SIGMOID on the host tensor, no OUTPUT_SIZE. *)
Definition host_cc : CalculatorContext ExConverter ExImage :=
  invocation (Some [host_tensor]) NotConnected sigmoid_options factories_succeed.

(** The same while the factories fail. *)
Definition failing_cc : CalculatorContext ExConverter ExImage :=
  invocation (Some [host_tensor]) NotConnected sigmoid_options factories_fail.

(** SOFTMAX on the device tensor, OUTPUT_SIZE (64, 64). *)
Definition device_cc : CalculatorContext ExConverter ExImage :=
  invocation (Some [device_tensor]) (Connected (Some (64, 64))) softmax_options
             factories_succeed.

(** SIGMOID on the two-channel tensor. *)
Definition mismatch_cc : CalculatorContext ExConverter ExImage :=
  invocation (Some [two_channel_tensor]) NotConnected sigmoid_options
             factories_succeed.

(** No batch at this timestamp. *)
Definition idle_cc : CalculatorContext ExConverter ExImage :=
  invocation None NotConnected sigmoid_options factories_succeed.

(** The calculator after [Open] with the SIGMOID, resp. SOFTMAX, options. *)
Definition sigmoid_calc : Calculator ExConverter :=
  set_options_ sigmoid_options new_Calculator.

Definition softmax_calc : Calculator ExConverter :=
  set_options_ softmax_options new_Calculator.

(** A build with Metal. *)
Definition metal_build : Platform :=
  {| CanUseGpu := true; MEDIAPIPE_DISABLE_GPU := false;
     MEDIAPIPE_OPENGL_ES_31 := false; MEDIAPIPE_METAL_ENABLED := true;
     MEDIAPIPE_DISABLE_OPENCV := false |}.

(** A contract with the three streams, whose helpers succeed. *)
Definition full_contract : CalculatorContract :=
  {| Inputs_GetTags := [kTensorsTag; kOutputSizeTag];
     Outputs_GetTags := [kMaskTag];
     GlCalculatorHelper_UpdateContract := fun _ => OkStatus;
     MPPMetalHelper_updateContract := OkStatus |}.

(** The same when the Metal helper fails. *)
Definition metal_failing_contract : CalculatorContract :=
  {| Inputs_GetTags := [kTensorsTag; kOutputSizeTag];
     Outputs_GetTags := [kMaskTag];
     GlCalculatorHelper_UpdateContract := fun _ => OkStatus;
     MPPMetalHelper_updateContract := Error kUnavailable |}.


(** Factories that return OK with a null pointer. *)
Definition factories_return_null (_ : Factory) (_ : Options)
  : StatusOr (option ExConverter) :=
  Value None.

(** SIGMOID on the host tensor while the factories return null. *)
Definition null_cc : CalculatorContext ExConverter ExImage :=
  invocation (Some [host_tensor]) NotConnected sigmoid_options
             factories_return_null.

(** SIGMOID on the host tensor while [Convert] fails. *)
Definition convert_failing_cc : CalculatorContext ExConverter ExImage :=
  {| Inputs_TENSORS := Some [host_tensor]; Inputs_OUTPUT_SIZE := NotConnected;
     InputTimestamp := 0; cc_Options := sigmoid_options;
     Create := factories_succeed;
     Convert := fun _ _ _ _ => NotOk kInternal |}.

End Examples.

(* ===================================================================== *)
(** ** Lemmas on the monad and on the blocks of [Process] *)

Section BlockLemmas.

Context {Converter Image : Type}.
Variable p : Platform.
Local Abbreviation Calculator := (Calculator Converter).
Local Abbreviation Event := (Event Converter Image).
Local Abbreviation CalculatorContext := (CalculatorContext Converter Image).
Local Abbreviation M := (M Converter Image).

Lemma bind_Done {A B} (m : M A) (k : A -> M B) calc a calc' tr :
  m calc = (Done a, calc', tr) ->
  bind m k calc = prepend tr (k a calc').
Proof.
  intros Hm. unfold bind, prepend. rewrite Hm. reflexivity.
Qed.

Lemma bind_Failed {A B} (m : M A) (k : A -> M B) calc c calc' tr :
  m calc = (Failed c, calc', tr) ->
  bind m k calc = (Failed c, calc', tr).
Proof.
  intros Hm. unfold bind. rewrite Hm. reflexivity.
Qed.

Lemma bind_Crashed {A B} (m : M A) (k : A -> M B) calc r calc' tr :
  m calc = (Crashed r, calc', tr) ->
  bind m k calc = (Crashed r, calc', tr).
Proof.
  intros Hm. unfold bind. rewrite Hm. reflexivity.
Qed.

Lemma for_ready_on_gpu_run (ts : list Tensor) :
  forall (i : nat) (calc : Calculator),
  exists tr,
    for_ready_on_gpu i ts calc = (Done (existsb ready_on_gpu ts), calc, tr) /\
    Forall (fun e : Event => step_of e = Selection) tr.
Proof.
  induction ts as [|t rest IH]; intros i calc.
  - exists []. split; [reflexivity | constructor].
  - cbn [for_ready_on_gpu existsb].
    destruct (ready_on_gpu t) eqn:Ht.
    + exists [ready_on_gpu_call i]. split; [reflexivity|].
      repeat constructor.
    + destruct (IH (S i) calc) as (tr & Hrun & Hsel).
      exists (ready_on_gpu_call i :: tr). split.
      * unfold bind, call. rewrite Hrun. reflexivity.
      * constructor; [reflexivity | exact Hsel].
Qed.

Lemma select_use_gpu_run (ts : list Tensor) (calc : Calculator) :
  exists tr,
    select_use_gpu p ts calc = (Done (use_gpu_of p ts), calc, CanUseGpu_call :: tr) /\
    Forall (fun e : Event => step_of e = Selection) tr.
Proof.
  unfold select_use_gpu, use_gpu_of.
  destruct (CanUseGpu p) eqn:Hcan.
  - destruct (for_ready_on_gpu_run ts 0 calc) as (tr & Hrun & Hsel).
    exists tr. split; [|exact Hsel].
    unfold bind, call. rewrite Hrun. reflexivity.
  - exists []. split; [reflexivity | constructor].
Qed.

Lemma GetHwcFromDims_NotOk (ds : list Z) (e : StatusCode) :
  GetHwcFromDims ds = NotOk e -> e = kInvalidArgument.
Proof.
  unfold GetHwcFromDims.
  destruct ds as [|a [|b [|c [|d [|x rest]]]]]; try congruence.
  destruct (a =? 1); congruence.
Qed.

Ltac run_block :=
  unfold bind, RET_CHECK, RET_CHECK_FAIL, Get, call, ret, fail, crash, member,
    assign, deref, index0, MP_ASSIGN_OR_RETURN; cbn.

Lemma validate_run (ts : list Tensor) (calc : Calculator) :
  exists tr,
    validate (Converter:=Converter) (Image:=Image) ts calc =
      (if valid (activation (options_ calc)) ts then Done tt
       else Failed kInvalidArgument, calc, RET_CHECK_not_empty :: tr) /\
    Forall (fun e : Event => step_of e = Validation) tr.
Proof.
  unfold validate, valid.
  destruct ts as [|t0 rest].
  - exists []. split; [reflexivity | constructor].
  - cbn [length Nat.eqb negb].
    destruct (ElementType_eqb (element_type t0) kFloat32) eqn:Hty.
    + destruct (GetHwcFromDims (dims t0)) as [[[h w] c]|e] eqn:Hhwc.
      * destruct (activation (options_ calc)) eqn:Hact.
        all: eexists; split;
          [ run_block; rewrite Hty, Hhwc; cbn; rewrite Hact; cbn;
            destruct (c =? _); reflexivity
          | repeat constructor ].
      * apply GetHwcFromDims_NotOk in Hhwc as He. subst e.
        eexists; split;
          [ run_block; rewrite Hty, Hhwc; reflexivity | repeat constructor ].
    + eexists; split;
        [ run_block; rewrite Hty; reflexivity | repeat constructor ].
Qed.

Lemma valid_inv (a : Activation) (ts : list Tensor) :
  valid a ts = true ->
  exists t0 rest h w c,
    ts = t0 :: rest /\ element_type t0 = kFloat32 /\
    GetHwcFromDims (dims t0) = Value (h, w, c) /\
    c = match a with NONE => 1 | SIGMOID => 1 | SOFTMAX => 2 end.
Proof.
  unfold valid. destruct ts as [|t0 rest]; [discriminate|].
  intros H. apply andb_prop in H as [Hty H].
  destruct (GetHwcFromDims (dims t0)) as [[[h w] c]|e] eqn:Hhwc; [|discriminate].
  exists t0, rest, h, w, c.
  split; [reflexivity|].
  split; [destruct (element_type t0); cbn in Hty; congruence|].
  split; [exact Hhwc|].
  destruct a; apply Z.eqb_eq in H; exact H.
Qed.

Lemma output_dimensions_run (cc : CalculatorContext) (t0 : Tensor)
    (rest : list Tensor) (h w c : Z) (calc : Calculator) :
  GetHwcFromDims (dims t0) = Value (h, w, c) ->
  exists tr,
    output_dimensions cc (t0 :: rest) calc =
      (match output_size_of cc w h with
       | Some size => Done size
       | None => Crashed GetOnEmptyPacket
       end, calc, tr) /\
    Forall (fun e : Event => step_of e = Dimensions) tr /\
    (existsb is_Get tr = HasTag_OUTPUT_SIZE (Inputs_OUTPUT_SIZE cc)).
Proof.
  intros Hhwc. unfold output_dimensions, output_size_of.
  destruct (Inputs_OUTPUT_SIZE cc) as [|[[ow oh]|]] eqn:Hin.
  all: eexists; split;
    [ run_block; rewrite Hhwc; reflexivity
    | split; [cbn; repeat constructor | reflexivity] ].
Qed.

Lemma delegate_run (g : bool) (cc : CalculatorContext) (ts : list Tensor)
    (ow oh : Z) (calc : Calculator) :
  delegate p g cc ts ow oh calc = delegate_form p g cc ts ow oh calc.
Proof.
  unfold delegate, delegate_form, InitConverterIfNecessary, convert_form,
    compiled_in, converter_, factory_of, prepend.
  destruct calc as [o cpu gpu].
  destruct g;
    [ destruct (MEDIAPIPE_DISABLE_GPU p) | destruct (MEDIAPIPE_DISABLE_OPENCV p) ];
    try reflexivity; cbn [negb].
  - destruct gpu as [c|]; run_block.
    + destruct (Convert cc c ts ow oh); reflexivity.
    + destruct (Create cc (gpu_factory p) o) as [[c|]|e]; cbn; try reflexivity.
      destruct (Convert cc c ts ow oh); reflexivity.
  - destruct cpu as [c|]; run_block.
    + destruct (Convert cc c ts ow oh); reflexivity.
    + destruct (Create cc CreateOpenCvConverter o) as [[c|]|e]; cbn;
        try reflexivity.
      destruct (Convert cc c ts ow oh); reflexivity.
Qed.

Lemma nondecreasing_app (k : nat) (l1 l2 : list nat) :
  Forall (fun a => (a <= k)%nat) l1 ->
  Forall (fun b => (k <= b)%nat) l2 ->
  nondecreasing l1 = true ->
  nondecreasing l2 = true ->
  nondecreasing (l1 ++ l2) = true.
Proof.
  intros H1 H2 S1 S2.
  induction l1 as [|a [|b l1] IH].
  - exact S2.
  - cbn. destruct l2 as [|b l2]; [reflexivity|].
    change (((a <=? b)%nat && nondecreasing (b :: l2)) = true).
    rewrite S2, andb_true_r. apply Nat.leb_le.
    inversion H1; inversion H2; subst. lia.
  - change (((a <=? b)%nat && nondecreasing ((b :: l1) ++ l2)) = true).
    change (((a <=? b)%nat && nondecreasing (b :: l1)) = true) in S1.
    apply andb_prop in S1 as [Hab S1].
    rewrite Hab. cbn [andb]. apply IH; [|exact S1].
    inversion H1; assumption.
Qed.

Lemma nondecreasing_const (k : nat) (l : list nat) :
  Forall (fun a => a = k) l -> nondecreasing l = true.
Proof.
  induction l as [|a [|b l] IH]; intros H; try reflexivity.
  change (((a <=? b)%nat && nondecreasing (b :: l)) = true).
  inversion H as [|? ? Ha H']; subst.
  rewrite IH by exact H'.
  inversion H'; subst. rewrite Nat.leb_refl. reflexivity.
Qed.

Lemma in_order_app (rank : Step -> nat) (k : nat) (tr1 tr2 : list Event) :
  Forall (fun e => (rank (step_of e) <= k)%nat) tr1 ->
  Forall (fun e => (k <= rank (step_of e))%nat) tr2 ->
  in_order rank tr1 = true ->
  in_order rank tr2 = true ->
  in_order rank (tr1 ++ tr2) = true.
Proof.
  intros H1 H2 S1 S2. unfold in_order in *. rewrite map_app.
  apply nondecreasing_app with (k := k); try assumption.
  - apply Forall_map. exact H1.
  - apply Forall_map. exact H2.
Qed.

Lemma in_order_step (rank : Step -> nat) (s : Step) (tr : list Event) :
  Forall (fun e => step_of e = s) tr ->
  in_order rank tr = true.
Proof.
  intros H. unfold in_order.
  apply nondecreasing_const with (k := rank s).
  apply Forall_map. eapply Forall_impl; [|exact H].
  cbn. intros e He. rewrite He. reflexivity.
Qed.

Lemma Forall_step_early (s : Step) (tr : list Event) :
  (s = Selection \/ s = Validation \/ s = Dimensions) ->
  Forall (fun e => step_of e = s) tr ->
  Forall (fun e => early e = true) tr.
Proof.
  intros Hs H. eapply Forall_impl; [|exact H].
  cbn. intros e He. unfold early. rewrite He.
  destruct Hs as [->|[->| ->]]; reflexivity.
Qed.

Lemma Forall_step_le (s : Step) (k : nat) (tr : list Event) :
  (source_rank s <= k)%nat ->
  Forall (fun e => step_of e = s) tr ->
  Forall (fun e => (source_rank (step_of e) <= k)%nat) tr.
Proof.
  intros Hs H. eapply Forall_impl; [|exact H].
  cbn. intros e He. rewrite He. exact Hs.
Qed.

Lemma Forall_step_ge (s : Step) (k : nat) (tr : list Event) :
  (k <= source_rank s)%nat ->
  Forall (fun e => step_of e = s) tr ->
  Forall (fun e => (k <= source_rank (step_of e))%nat) tr.
Proof.
  intros Hs H. eapply Forall_impl; [|exact H].
  cbn. intros e He. rewrite He. exact Hs.
Qed.

(** [Process] on a present batch: the first three blocks log [tr0] and leave
    the calculator as it is; then either validation fails, or the packet of
    a connected OUTPUT_SIZE is empty, or the branch of the selected variant
    runs. *)
Lemma Process_run (cc : CalculatorContext) (ts : list Tensor) (calc : Calculator) :
  Inputs_TENSORS cc = Some ts ->
  exists tr0,
    Forall (fun e => early e = true) tr0 /\
    in_order source_rank tr0 = true /\
    (exists tr1 tr2, tr0 = CanUseGpu_call :: tr1 ++ RET_CHECK_not_empty :: tr2) /\
    if valid (activation (options_ calc)) ts then
      exists t0 rest h w c,
        ts = t0 :: rest /\
        GetHwcFromDims (dims t0) = Value (h, w, c) /\
        existsb is_Get tr0 = HasTag_OUTPUT_SIZE (Inputs_OUTPUT_SIZE cc) /\
        match output_size_of cc w h with
        | Some size =>
            Process p cc calc =
              prepend tr0
                (delegate_form p (use_gpu_of p ts) cc ts (fst size) (snd size) calc)
        | None => Process p cc calc = (Crashed GetOnEmptyPacket, calc, tr0)
        end
    else Process p cc calc = (Failed kInvalidArgument, calc, tr0).
Proof.
  intros Hin. unfold Process. rewrite Hin.
  destruct (select_use_gpu_run ts calc) as (trs & Hsel & Fsel).
  destruct (validate_run ts calc) as (trv & Hval & Fval).
  rewrite (bind_Done _ _ _ Hsel).
  assert (Fs : Forall (fun e : Event => step_of e = Selection) (CanUseGpu_call :: trs))
    by (constructor; [reflexivity | exact Fsel]).
  assert (Fv : Forall (fun e : Event => step_of e = Validation)
                 (RET_CHECK_not_empty :: trv))
    by (constructor; [reflexivity | exact Fval]).
  assert (Osv : in_order source_rank
                  ((CanUseGpu_call :: trs) ++ RET_CHECK_not_empty :: trv) = true).
  { apply in_order_app with (k := 1%nat).
    - apply Forall_step_le with (s := Selection); [cbn; lia | exact Fs].
    - apply Forall_step_ge with (s := Validation); [cbn; lia | exact Fv].
    - apply in_order_step with (s := Selection); exact Fs.
    - apply in_order_step with (s := Validation); exact Fv. }
  assert (Esv : Forall (fun e : Event => early e = true)
                  ((CanUseGpu_call :: trs) ++ RET_CHECK_not_empty :: trv)).
  { apply Forall_app. split.
    - apply Forall_step_early with (s := Selection); auto.
    - apply Forall_step_early with (s := Validation); auto. }
  destruct (valid (activation (options_ calc)) ts) eqn:Hv.
  - destruct (valid_inv _ _ Hv) as (t0 & rest & h & w & c & -> & _ & Hhwc & _).
    destruct (output_dimensions_run cc t0 rest calc Hhwc) as (trd & Hdim & Fdim & Hget).
    rewrite (bind_Done _ _ _ Hval).
    exists (((CanUseGpu_call :: trs) ++ RET_CHECK_not_empty :: trv) ++ trd).
    split; [|split; [|split]].
    + apply Forall_app. split; [exact Esv|].
      apply Forall_step_early with (s := Dimensions); auto.
    + apply in_order_app with (k := 2%nat).
      * apply Forall_app. split.
        -- apply Forall_step_le with (s := Selection); [cbn; lia | exact Fs].
        -- apply Forall_step_le with (s := Validation); [cbn; lia | exact Fv].
      * apply Forall_step_ge with (s := Dimensions); [cbn; lia | exact Fdim].
      * exact Osv.
      * apply in_order_step with (s := Dimensions); exact Fdim.
    + exists trs, (trv ++ trd). cbn. rewrite <- app_assoc. reflexivity.
    + exists t0, rest, h, w, c.
      split; [reflexivity|]. split; [exact Hhwc|]. split.
      * rewrite !existsb_app.
        replace (existsb is_Get (CanUseGpu_call :: trs)) with false.
        2:{ symmetry. apply not_true_is_false. intros Hx.
            apply existsb_exists in Hx as (e & He & Hg).
            rewrite Forall_forall in Fs. specialize (Fs e He).
            destruct e; cbn in Hg, Fs; congruence. }
        replace (existsb is_Get (RET_CHECK_not_empty :: trv)) with false.
        2:{ symmetry. apply not_true_is_false. intros Hx.
            apply existsb_exists in Hx as (e & He & Hg).
            rewrite Forall_forall in Fv. specialize (Fv e He).
            destruct e; cbn in Hg, Fv; congruence. }
        exact Hget.
      * destruct (output_size_of cc w h) as [size|].
        -- rewrite (bind_Done _ _ _ Hdim). rewrite delegate_run.
           destruct (delegate_form p (use_gpu_of p (t0 :: rest)) cc (t0 :: rest)
                       (fst size) (snd size) calc) as [[o calc'] tr].
           cbn. rewrite <- !app_assoc. reflexivity.
        -- rewrite (bind_Crashed _ _ _ Hdim). cbn.
           rewrite <- !app_assoc. reflexivity.
  - rewrite (bind_Failed _ _ _ Hval).
    exists ((CanUseGpu_call :: trs) ++ RET_CHECK_not_empty :: trv).
    split; [exact Esv|]. split; [exact Osv|].
    split; [exists trs, trv; reflexivity | reflexivity].
Qed.

End BlockLemmas.

(* ===================================================================== *)
(** ** Properties of the calculator *)

Section Properties.

Context {Converter Image : Type}.
Variable p : Platform.
Local Abbreviation Calculator := (Calculator Converter).
Local Abbreviation Event := (Event Converter Image).
Local Abbreviation CalculatorContext := (CalculatorContext Converter Image).

Lemma builds_gpu_factory_of (g : bool) : builds_gpu (factory_of p g) = g.
Proof.
  unfold factory_of, gpu_factory.
  destruct g; [|reflexivity].
  destruct (MEDIAPIPE_OPENGL_ES_31 p); [reflexivity|].
  destruct (MEDIAPIPE_METAL_ENABLED p); reflexivity.
Qed.

Lemma early_not_backend (e : Event) :
  early e = true ->
  is_backend e = false /\
  (forall g, is_Create g e = false) /\
  (forall g, is_Created g e = false) /\
  (forall g, is_Convert g e = false) /\
  (source_rank (step_of e) <= 3)%nat.
Proof.
  unfold early, is_backend.
  destruct e as [d| |i| | |[|]|c x| |f r|g c ts w h|m t]; cbn; try discriminate;
    intros _; repeat split; lia.
Qed.

Ltac delegate_cases g cc calc ts ow oh :=
  unfold delegate_form, convert_form, prepend;
  destruct (compiled_in p g) eqn:?;
  [ destruct (converter_ g calc) eqn:?;
    [ | destruct (Create cc (factory_of p g) (options_ calc)) as [[?|]|?] eqn:? ]
  | ];
  try match goal with
      | |- context [Convert cc ?conv ts ow oh] =>
          destruct (Convert cc conv ts ow oh) eqn:?
      end.

(** The branch of variant [g] leaves the cache of the other variant and the
    options alone, and calls nothing of the other variant. *)
Lemma delegate_form_frame (g : bool) (cc : CalculatorContext) (ts : list Tensor)
    (ow oh : Z) (calc : Calculator) :
  let r := delegate_form p g cc ts ow oh calc in
  converter_ (negb g) (snd (fst r)) = converter_ (negb g) calc /\
  options_ (snd (fst r)) = options_ calc /\
  Forall (fun e => is_Create (negb g) e = false /\
                   is_Convert (negb g) e = false /\
                   early e = false) (snd r).
Proof.
  pose proof (builds_gpu_factory_of g) as Hf.
  delegate_cases g cc calc ts ow oh; cbn.
  all: repeat split; try (destruct g; reflexivity).
  all: repeat constructor; cbn; try rewrite Hf; destruct g; reflexivity.
Qed.

Lemma filter_none {A} (f : A -> bool) (l : list A) :
  Forall (fun a => f a = false) l -> filter f l = [].
Proof.
  induction 1 as [|a l Ha _ IH]; [reflexivity|].
  cbn. rewrite Ha. exact IH.
Qed.

Lemma count_app (f : Event -> bool) (tr1 tr2 : list Event) :
  count f (tr1 ++ tr2) = (count f tr1 + count f tr2)%nat.
Proof.
  unfold count. rewrite filter_app, length_app. reflexivity.
Qed.

Lemma count_early (f : Event -> bool) (tr : list Event) :
  (forall e, early e = true -> f e = false) ->
  Forall (fun e => early e = true) tr ->
  count f tr = 0%nat.
Proof.
  intros Hf H. unfold count. rewrite filter_none; [reflexivity|].
  eapply Forall_impl; [|exact H]. exact Hf.
Qed.

(** C6. When no tensor batch is present, [Process] returns OK at once: the
    calculator is unchanged and nothing is logged, so there is no selection,
    no validation, no construction, no conversion and no output. *)
Theorem Process_without_batch (cc : CalculatorContext) (calc : Calculator) :
  Inputs_TENSORS cc = None ->
  Process p cc calc = (Done tt, calc, []) /\
  returned (fst (fst (Process p cc calc))) = Some OkStatus.
Proof.
  intros Hin. unfold Process. rewrite Hin. split; reflexivity.
Qed.

(** C10. [Open] succeeds for every options value: it sets the offset and
    copies the options of the node, whatever they are, leaving the
    converters as they were.  An activation that does not fit the tensors is
    found by [Process] only: after an [Open] that succeeded, a batch whose
    first tensor has a channel count other than the one the activation asks
    for makes [Process] return InvalidArgument. *)
Theorem Open_always_succeeds (cc : CalculatorContext) (calc : Calculator) :
  Open cc calc = (Done tt, set_options_ (cc_Options cc) calc, [SetOffset_call 0]) /\
  returned (fst (fst (Open cc calc))) = Some OkStatus /\
  forall (cc' : CalculatorContext) t0 rest h w c,
    Inputs_TENSORS cc' = Some (t0 :: rest) ->
    GetHwcFromDims (dims t0) = Value (h, w, c) ->
    c <> match activation (cc_Options cc) with
         | NONE => 1 | SIGMOID => 1 | SOFTMAX => 2
         end ->
    returned (fst (fst (Process p cc' (snd (fst (Open cc calc)))))) =
      Some (Error kInvalidArgument).
Proof.
  split; [reflexivity|]. split; [reflexivity|].
  intros cc' t0 rest h w c Hin Hhwc Hc. cbn.
  destruct (Process_run p cc' (set_options_ (cc_Options cc) calc) Hin)
    as (tr0 & _ & _ & _ & Hrun).
  assert (Hv : valid (activation (options_ (set_options_ (cc_Options cc) calc)))
                 (t0 :: rest) = false).
  { unfold valid. rewrite Hhwc. cbn [options_ set_options_].
    apply andb_false_intro2.
    destruct (activation (cc_Options cc)); apply Z.eqb_neq; exact Hc. }
  rewrite Hv in Hrun. rewrite Hrun. reflexivity.
Qed.

(** C4. [GetHwcFromDims] returns (H, W, C) exactly on the shapes [H; W; C]
    and [1; H; W; C]; a shape of rank 4 whose first dimension is not 1 fails
    with InvalidArgument, and so does a shape of any rank other than 3 and
    4. *)
Theorem GetHwcFromDims_spec (ds : list Z) :
  (forall h w c,
     GetHwcFromDims ds = Value (h, w, c) <-> ds = [h; w; c] \/ ds = [1; h; w; c]) /\
  (forall b h w c, ds = [b; h; w; c] -> b <> 1 ->
     GetHwcFromDims ds = NotOk kInvalidArgument) /\
  (length ds <> 3%nat -> length ds <> 4%nat ->
     GetHwcFromDims ds = NotOk kInvalidArgument).
Proof.
  split; [|split].
  - intros h w c. unfold GetHwcFromDims. split.
    + destruct ds as [|x1 [|x2 [|x3 [|x4 [|x5 rest]]]]]; try discriminate.
      * intros H. injection H as -> -> ->. left. reflexivity.
      * destruct (x1 =? 1) eqn:Hb; [|discriminate].
        apply Z.eqb_eq in Hb. subst x1.
        intros H. injection H as -> -> ->. right. reflexivity.
    + intros [-> | ->]; reflexivity.
  - intros b h w c -> Hb. unfold GetHwcFromDims.
    apply Z.eqb_neq in Hb. rewrite Hb. reflexivity.
  - intros H3 H4. unfold GetHwcFromDims.
    destruct ds as [|x1 [|x2 [|x3 [|x4 [|x5 rest]]]]]; try reflexivity.
    + exfalso. apply H3. reflexivity.
    + exfalso. apply H4. reflexivity.
Qed.

(** What [Process] logs on a present batch never belongs to the variant that
    was not selected, and the cache of that variant and the options are
    left as they were. *)
Lemma Process_frame (cc : CalculatorContext) (ts : list Tensor) (calc : Calculator) :
  Inputs_TENSORS cc = Some ts ->
  let g := use_gpu_of p ts in
  let r := Process p cc calc in
  converter_ (negb g) (snd (fst r)) = converter_ (negb g) calc /\
  options_ (snd (fst r)) = options_ calc /\
  Forall (fun e => is_Create (negb g) e = false /\
                   is_Convert (negb g) e = false) (snd r).
Proof.
  intros Hin g r. subst r.
  destruct (Process_run p cc calc Hin) as (tr0 & Hearly & _ & _ & Hrun).
  assert (F0 : Forall (fun e : Event => is_Create (negb g) e = false /\
                         is_Convert (negb g) e = false) tr0).
  { eapply Forall_impl; [|exact Hearly].
    cbn. intros e He. apply early_not_backend in He as (_ & H1 & _ & H2 & _).
    split; [apply H1 | apply H2]. }
  destruct (valid (activation (options_ calc)) ts).
  - destruct Hrun as (t0 & rest & h & w & c & _ & _ & _ & Hrun).
    destruct (output_size_of cc w h) as [size|].
    + rewrite Hrun.
      pose proof (delegate_form_frame g cc ts (fst size) (snd size) calc) as Hd.
      fold g. cbv zeta in Hd.
      destruct (delegate_form p g cc ts (fst size) (snd size) calc) as [[o calc'] tr].
      cbn in *. destruct Hd as (Hc & Ho & Hf).
      split; [exact Hc|]. split; [exact Ho|].
      apply Forall_app. split; [exact F0|].
      eapply Forall_impl; [|exact Hf]. cbn. intros e (H1 & H2 & _). auto.
    + rewrite Hrun. cbn. auto.
  - rewrite Hrun. cbn. auto.
Qed.

(** C1. On a non-empty batch, lines 196-205 leave [true] in [use_gpu] if and
    only if [CanUseGpu()] holds and some tensor of the batch is ready on
    GPU; in the three other combinations of the two booleans they leave
    [false].  [Process] then calls no factory and no [Convert] of the other
    variant. *)
Theorem backend_selection (cc : CalculatorContext) (ts : list Tensor)
    (calc : Calculator) :
  Inputs_TENSORS cc = Some ts ->
  ts <> [] ->
  exists use_gpu : bool,
    fst (fst (select_use_gpu (Image:=Image) p ts calc)) = Done use_gpu /\
    (use_gpu = true <->
       CanUseGpu p = true /\ exists t, In t ts /\ ready_on_gpu t = true) /\
    use_gpu = CanUseGpu p && existsb ready_on_gpu ts /\
    Forall (fun e => is_Create (negb use_gpu) e = false /\
                     is_Convert (negb use_gpu) e = false)
           (snd (Process p cc calc)).
Proof.
  intros Hin _.
  exists (use_gpu_of p ts).
  destruct (select_use_gpu_run (Image:=Image) p ts calc) as (tr & Hsel & _).
  split; [rewrite Hsel; reflexivity|].
  split; [|split; [reflexivity|]].
  - unfold use_gpu_of. rewrite andb_true_iff, existsb_exists. reflexivity.
  - apply (Process_frame cc calc Hin).
Qed.

(** C2. [Process] returns InvalidArgument when the batch is empty, when the
    element type of the first tensor is not [kFloat32], or when the channel
    count of the first tensor is not the one the activation asks for (1 for
    NONE and SIGMOID, 2 for SOFTMAX).  In each case the calculator is left
    as it was and no factory, no [Convert] and no output is called. *)
Theorem validation_failure (cc : CalculatorContext) (ts : list Tensor)
    (calc : Calculator) :
  Inputs_TENSORS cc = Some ts ->
  ts = [] \/
  (exists t0 rest, ts = t0 :: rest /\ element_type t0 <> kFloat32) \/
  (exists t0 rest h w c,
     ts = t0 :: rest /\ GetHwcFromDims (dims t0) = Value (h, w, c) /\
     match activation (options_ calc) with
     | NONE => c <> 1
     | SIGMOID => c <> 1
     | SOFTMAX => c <> 2
     end) ->
  exists tr,
    Process p cc calc = (Failed kInvalidArgument, calc, tr) /\
    returned (fst (fst (Process p cc calc))) = Some (Error kInvalidArgument) /\
    (forall f r, ~ In (Create_call f r) tr) /\
    Forall (fun e => is_backend e = false) tr.
Proof.
  intros Hin Hbad.
  destruct (Process_run p cc calc Hin) as (tr0 & Hearly & _ & _ & Hrun).
  assert (Hv : valid (activation (options_ calc)) ts = false).
  { destruct Hbad as [-> | [(t0 & rest & -> & Hty)
                           | (t0 & rest & h & w & c & -> & Hhwc & Hc)]].
    - reflexivity.
    - unfold valid. apply andb_false_intro1.
      destruct (element_type t0); try reflexivity. congruence.
    - unfold valid. rewrite Hhwc. apply andb_false_intro2.
      destruct (activation (options_ calc)); apply Z.eqb_neq; exact Hc. }
  rewrite Hv in Hrun. exists tr0. rewrite Hrun.
  split; [reflexivity|]. split; [reflexivity|].
  assert (Hb : Forall (fun e : Event => is_backend e = false) tr0).
  { eapply Forall_impl; [|exact Hearly].
    cbn. intros e He. apply early_not_backend in He. tauto. }
  split; [|exact Hb].
  intros f r Hx. rewrite Forall_forall in Hb.
  specialize (Hb _ Hx). discriminate.
Qed.

(** C8. When the branch of the variant chosen by [use_gpu] is compiled out,
    [InitConverterIfNecessary] returns FailedPrecondition at once: the
    calculator is unchanged and no factory is called.  So does [Process] on
    a batch that passes validation and selects that variant, when the
    output size is at hand. *)
Theorem backend_not_compiled_in (use_gpu : bool) (cc : CalculatorContext)
    (calc : Calculator) :
  compiled_in p use_gpu = false ->
  InitConverterIfNecessary p use_gpu cc calc = (Failed kFailedPrecondition, calc, []) /\
  forall ts,
    Inputs_TENSORS cc = Some ts ->
    use_gpu_of p ts = use_gpu ->
    exists o tr,
      Process p cc calc = (o, calc, tr) /\
      o <> Done tt /\
      (forall f r, ~ In (Create_call f r) tr) /\
      (valid (activation (options_ calc)) ts = true ->
       Inputs_OUTPUT_SIZE cc <> Connected None ->
       o = Failed kFailedPrecondition).
Proof.
  intros Hc. split.
  - unfold InitConverterIfNecessary, compiled_in in *.
    destruct use_gpu.
    + destruct (MEDIAPIPE_DISABLE_GPU p); [reflexivity | discriminate].
    + destruct (MEDIAPIPE_DISABLE_OPENCV p); [reflexivity | discriminate].
  - intros ts Hin Hg.
    destruct (Process_run p cc calc Hin) as (tr0 & Hearly & _ & _ & Hrun).
    assert (Hn : forall f r, ~ In (Create_call f r) tr0).
    { intros f r Hx. rewrite Forall_forall in Hearly.
      specialize (Hearly _ Hx). discriminate. }
    destruct (valid (activation (options_ calc)) ts).
    + destruct Hrun as (t0 & rest & h & w & c & _ & _ & _ & Hrun).
      unfold output_size_of in Hrun.
      destruct (Inputs_OUTPUT_SIZE cc) as [|[size|]].
      all: try (rewrite Hg in Hrun; unfold delegate_form in Hrun;
                rewrite Hc in Hrun; unfold RET_CHECK_FAIL_code in Hrun;
                cbn in Hrun; rewrite app_nil_r in Hrun).
      all: eexists; exists tr0; split; [exact Hrun|].
      all: split; [discriminate|]; split; [exact Hn|]; congruence.
    + eexists; exists tr0. split; [exact Hrun|].
      split; [discriminate|]. split; [exact Hn|]. discriminate.
Qed.


Lemma ignores_ret {A} (f : Calculator -> Calculator) (a : A) :
  ignores (Image:=Image) f (ret a).
Proof. intros calc. reflexivity. Qed.

Lemma ignores_call (f : Calculator -> Calculator) (e : Event) :
  ignores (Image:=Image) f (call e).
Proof. intros calc. reflexivity. Qed.

Lemma ignores_fail {A} (f : Calculator -> Calculator) (c : StatusCode) :
  ignores (Image:=Image) f (fail (A:=A) c).
Proof. intros calc. reflexivity. Qed.

Lemma ignores_crash {A} (f : Calculator -> Calculator) (r : Crash) :
  ignores (Image:=Image) f (crash (A:=A) r).
Proof. intros calc. reflexivity. Qed.

Lemma ignores_member {A} (f : Calculator -> Calculator) (field : Calculator -> A) :
  (forall calc, field (f calc) = field calc) ->
  ignores (Image:=Image) f (member field).
Proof. intros H calc. unfold member. rewrite H. reflexivity. Qed.

Lemma ignores_assign (f h : Calculator -> Calculator) :
  (forall calc, h (f calc) = f (h calc)) ->
  ignores (Image:=Image) f (assign h).
Proof. intros H calc. unfold assign. rewrite H. reflexivity. Qed.

Lemma ignores_bind {A B} (f : Calculator -> Calculator)
    (m : M Converter Image A) (k : A -> M Converter Image B) :
  ignores (Image:=Image) f m ->
  (forall a, ignores (Image:=Image) f (k a)) ->
  ignores (Image:=Image) f (bind m k).
Proof.
  intros Hm Hk calc. unfold bind. rewrite Hm.
  destruct (m calc) as [[[a|c|r] calc'] tr]; cbn; try reflexivity.
  rewrite Hk. destruct (k a calc') as [[o calc''] tr']. reflexivity.
Qed.

(** The same when [m] can only yield [a0]. *)
Lemma ignores_bind_value {A B} (f : Calculator -> Calculator) (a0 : A)
    (m : M Converter Image A)
    (k : A -> M Converter Image B) :
  (forall calc a calc' tr, m calc = (Done a, calc', tr) -> a = a0) ->
  ignores (Image:=Image) f m ->
  ignores (Image:=Image) f (k a0) ->
  ignores (Image:=Image) f (bind m k).
Proof.
  intros Ha Hm Hk calc. unfold bind. rewrite Hm.
  destruct (m calc) as [[[a|c|r] calc'] tr] eqn:Hrun; cbn; try reflexivity.
  rewrite (Ha _ _ _ _ Hrun).
  rewrite Hk. destruct (k a0 calc') as [[o calc''] tr']. reflexivity.
Qed.

Ltac ignores_step :=
  first
    [ apply ignores_ret | apply ignores_call | apply ignores_fail
    | apply ignores_crash
    | apply ignores_bind; [|intros]
    | match goal with
      | |- ignores (Image:=Image) _ (match ?x with _ => _ end) => destruct x
      end ].

Ltac ignores_blocks :=
  unfold RET_CHECK, RET_CHECK_FAIL, Get, MP_ASSIGN_OR_RETURN, index0, deref;
  repeat ignores_step.

Lemma for_ready_on_gpu_ignores (f : Calculator -> Calculator) (ts : list Tensor) :
  forall i, ignores (Image:=Image) f (for_ready_on_gpu i ts).
Proof.
  induction ts as [|t rest IH]; intros i; cbn [for_ready_on_gpu].
  - apply ignores_ret.
  - ignores_blocks. apply IH.
Qed.

Lemma select_use_gpu_ignores (f : Calculator -> Calculator) (ts : list Tensor) :
  ignores (Image:=Image) f (select_use_gpu p ts).
Proof.
  unfold select_use_gpu. ignores_blocks. apply for_ready_on_gpu_ignores.
Qed.

Lemma validate_ignores (f : Calculator -> Calculator) (ts : list Tensor) :
  (forall calc, options_ (f calc) = options_ calc) ->
  ignores (Image:=Image) f (validate ts).
Proof.
  intros Ho. unfold validate. ignores_blocks.
  all: try (apply ignores_member; exact Ho).
  all: ignores_blocks.
Qed.

Lemma output_dimensions_ignores (f : Calculator -> Calculator)
    (cc : CalculatorContext) (ts : list Tensor) :
  ignores (Image:=Image) f (output_dimensions cc ts).
Proof.
  unfold output_dimensions. ignores_blocks.
Qed.

Lemma delegate_ignores (g : bool) (x : option Converter) (cc : CalculatorContext)
    (ts : list Tensor) (ow oh : Z) :
  ignores (Image:=Image) (set_converter_ (negb g) x) (delegate p g cc ts ow oh).
Proof.
  unfold delegate, InitConverterIfNecessary.
  destruct g; cbn [negb].
  all: repeat first
         [ ignores_step
         | progress unfold RET_CHECK_FAIL, MP_ASSIGN_OR_RETURN, deref
         | apply ignores_member; intros calc; reflexivity
         | apply ignores_assign; intros calc; reflexivity ].
Qed.

Lemma select_use_gpu_value (ts : list Tensor) (calc calc' : Calculator)
    (a : bool) (tr : list Event) :
  select_use_gpu p ts calc = (Done a, calc', tr) -> a = use_gpu_of p ts.
Proof.
  destruct (select_use_gpu_run (Image:=Image) p ts calc) as (tr' & Hrun & _).
  rewrite Hrun. congruence.
Qed.

(** [Process] ignores the cache of the variant it does not select. *)
Lemma Process_ignores (cc : CalculatorContext) (ts : list Tensor)
    (x : option Converter) :
  Inputs_TENSORS cc = Some ts ->
  ignores (Image:=Image) (set_converter_ (negb (use_gpu_of p ts)) x) (Process p cc).
Proof.
  intros Hin. unfold Process. rewrite Hin.
  apply ignores_bind_value with (a0 := use_gpu_of p ts).
  - intros calc a calc' tr. apply select_use_gpu_value.
  - apply select_use_gpu_ignores.
  - apply ignores_bind.
    + apply validate_ignores. intros calc.
      destruct (use_gpu_of p ts); reflexivity.
    + intros _. apply ignores_bind.
      * apply output_dimensions_ignores.
      * intros size. apply delegate_ignores.
Qed.

(** C9. An invocation changes at most the cache field of the variant it
    selects.  On a present batch, with [g] the selected variant: the cache
    of the other variant and the options are what they were; no factory and
    no [Convert] of the other variant is called; and whatever is put in the
    cache of the other variant beforehand, the outcome and the log are the
    same and that cache holds it afterwards, so it is not read.  Without a
    batch nothing changes. *)
Theorem other_variant_untouched (cc : CalculatorContext) (calc : Calculator) :
  match Inputs_TENSORS cc with
  | None => snd (fst (Process p cc calc)) = calc
  | Some ts =>
      let g := use_gpu_of p ts in
      let r := Process p cc calc in
      converter_ (negb g) (snd (fst r)) = converter_ (negb g) calc /\
      options_ (snd (fst r)) = options_ calc /\
      Forall (fun e => is_Create (negb g) e = false /\
                       is_Convert (negb g) e = false) (snd r) /\
      forall x : option Converter,
        Process p cc (set_converter_ (negb g) x calc) =
          (fst (fst r), set_converter_ (negb g) x (snd (fst r)), snd r)
  end.
Proof.
  destruct (Inputs_TENSORS cc) as [ts|] eqn:Hin.
  - cbv zeta.
    destruct (Process_frame cc calc Hin) as (Hc & Ho & Hf).
    split; [exact Hc|]. split; [exact Ho|]. split; [exact Hf|].
    intros x. rewrite (Process_ignores cc x Hin calc).
    destruct (Process p cc calc) as [[o calc'] tr]. reflexivity.
  - unfold Process. rewrite Hin. reflexivity.
Qed.

Lemma nondecreasing_prefix_le (l1 : list nat) (x : nat) (l2 : list nat) :
  nondecreasing (l1 ++ x :: l2) = true ->
  Forall (fun a => (a <= x)%nat) l1.
Proof.
  induction l1 as [|a l1 IH]; intros H; [constructor|].
  assert (Htail : nondecreasing (l1 ++ x :: l2) = true).
  { destruct l1; cbn in H |- *; apply andb_prop in H; apply H. }
  specialize (IH Htail). constructor; [|exact IH].
  destruct l1 as [|b l1]; cbn in H; apply andb_prop in H as [Hab _];
    apply Nat.leb_le in Hab; [exact Hab|].
  inversion IH; subst. lia.
Qed.

Lemma in_order_precedes (rank : Step -> nat) (a b : Step) (tr : list Event) :
  (rank a < rank b)%nat ->
  in_order rank tr = true ->
  precedes a b tr.
Proof.
  intros Hab Hord l1 e l2 -> He.
  unfold in_order in Hord. rewrite map_app in Hord. cbn [map] in Hord.
  apply nondecreasing_prefix_le in Hord.
  rewrite Forall_map in Hord.
  eapply Forall_impl; [|exact Hord].
  cbn. intros e' Hle Hb. rewrite He, Hb in Hle. lia.
Qed.

Lemma delegate_form_order (g : bool) (cc : CalculatorContext) (ts : list Tensor)
    (ow oh : Z) (calc : Calculator) :
  in_order source_rank (snd (delegate_form p g cc ts ow oh calc)) = true /\
  Forall (fun e => (3 <= source_rank (step_of e))%nat)
         (snd (delegate_form p g cc ts ow oh calc)).
Proof.
  delegate_cases g cc calc ts ow oh; cbn.
  all: split; [reflexivity | repeat constructor; cbn; lia].
Qed.

(** The whole log of [Process] follows the order of the source. *)
Lemma Process_in_order (cc : CalculatorContext) (calc : Calculator) :
  in_order source_rank (snd (Process p cc calc)) = true.
Proof.
  destruct (Inputs_TENSORS cc) as [ts|] eqn:Hin.
  - destruct (Process_run p cc calc Hin) as (tr0 & Hearly & Hord & _ & Hrun).
    destruct (valid (activation (options_ calc)) ts).
    + destruct Hrun as (t0 & rest & h & w & c & _ & _ & _ & Hrun).
      destruct (output_size_of cc w h) as [size|]; rewrite Hrun; [|exact Hord].
      destruct (delegate_form_order (use_gpu_of p ts) cc ts (fst size) (snd size) calc)
        as (Hd & Hge).
      destruct (delegate_form p (use_gpu_of p ts) cc ts (fst size) (snd size) calc)
        as [[o calc'] tr].
      cbn in *. apply in_order_app with (k := 3%nat); try assumption.
      eapply Forall_impl; [|exact Hearly].
      cbn. intros e He. apply early_not_backend in He. tauto.
    + rewrite Hrun. exact Hord.
  - unfold Process. rewrite Hin. reflexivity.
Qed.

(** C7, as amended.  On a present batch the steps of [Process] come in the
    order of the source: the selection of the backend (the capability flag
    and the residency of the batch) first, then the validation of the
    input, then the acquisition of the converter.  Both the selection and
    the validation do run.  When validation fails, [Process] returns that
    failure, the calculator is left as it was, and no factory, no [Convert]
    and no output is called. *)
Theorem selection_then_validation_then_acquisition (cc : CalculatorContext)
    (ts : list Tensor) (calc : Calculator) :
  Inputs_TENSORS cc = Some ts ->
  let r := Process p cc calc in
  selection_first (snd r) /\
  precedes Selection Acquisition (snd r) /\
  (exists tr1 tr2 tr3,
     snd r = CanUseGpu_call :: tr1 ++ RET_CHECK_not_empty :: tr2 ++ tr3 /\
     snd (validate ts calc) = RET_CHECK_not_empty :: tr2) /\
  (forall c,
     fst (fst (validate (Converter:=Converter) (Image:=Image) ts calc)) = Failed c ->
     fst (fst r) = Failed c /\
     snd (fst r) = calc /\
     Forall (fun e => is_backend e = false) (snd r)).
Proof.
  intros Hin r. subst r.
  pose proof (Process_in_order cc calc) as Hord.
  split; [split; apply in_order_precedes with (rank := source_rank);
          [cbn; lia | exact Hord | cbn; lia | exact Hord]|].
  split; [apply in_order_precedes with (rank := source_rank); [cbn; lia | exact Hord]|].
  clear Hord. unfold Process. rewrite Hin.
  destruct (select_use_gpu_run (Image:=Image) p ts calc) as (trs & Hsel & _).
  destruct (validate_run (Image:=Image) ts calc) as (trv & Hval & Fval).
  rewrite (bind_Done _ _ _ Hsel). rewrite Hval. cbn [fst snd].
  destruct (valid (activation (options_ calc)) ts).
  - rewrite (bind_Done _ _ _ Hval). split; [|discriminate].
    destruct (bind (output_dimensions cc ts) _ calc) as [[o calc'] tr3].
    exists trs, trv, tr3. split; reflexivity.
  - rewrite (bind_Failed _ _ _ Hval). cbn. split.
    + exists trs, trv, []. rewrite app_nil_r. split; reflexivity.
    + intros c [= <-]. split; [reflexivity|]. split; [reflexivity|].
      constructor; [reflexivity|].
      apply Forall_app. split.
      * destruct (select_use_gpu_run (Image:=Image) p ts calc) as (trs' & Hsel' & Fsel).
        rewrite Hsel in Hsel'. injection Hsel' as <-.
        eapply Forall_impl; [|exact Fsel].
        cbn. intros e He. unfold is_backend. rewrite He. reflexivity.
      * constructor; [reflexivity|].
        eapply Forall_impl; [|exact Fval].
        cbn. intros e He. unfold is_backend. rewrite He. reflexivity.
Qed.

Lemma count_Created_le_Create (g : bool) (tr : list Event) :
  (count (is_Created g) tr <= count (is_Create g) tr)%nat.
Proof.
  unfold count. induction tr as [|e tr IH]; [reflexivity|].
  cbn. destruct e as [d| |i| | |[|]|c x| |f [[c|]|c]|g' c ts w h|m t]; cbn;
    try exact IH.
  all: destruct (Bool.eqb (builds_gpu f) g); cbn; lia.
Qed.

Lemma Process_selected (g : bool) (cc : CalculatorContext) (calc : Calculator) :
  selects p g (options_ calc) cc = true ->
  exists tr0 ts ow oh,
    Forall (fun e => early e = true) tr0 /\
    Process p cc calc = prepend tr0 (delegate_form p g cc ts ow oh calc).
Proof.
  unfold selects. destruct (Inputs_TENSORS cc) as [ts|] eqn:Hin; [|discriminate].
  intros H. apply andb_prop in H as [H Hsz]. apply andb_prop in H as [Hg Hv].
  apply Bool.eqb_prop in Hg.
  destruct (Process_run p cc calc Hin) as (tr0 & Hearly & _ & _ & Hrun).
  rewrite Hv in Hrun.
  destruct Hrun as (t0 & rest & h & w & c & _ & _ & _ & Hrun).
  unfold output_size_of in Hrun.
  destruct (Inputs_OUTPUT_SIZE cc) as [|[size|]]; [| |discriminate].
  all: rewrite Hg in Hrun; eauto 10.
Qed.

(** One invocation that selects [g], with [g] compiled in. *)
Lemma Process_selected_counts (g : bool) (cc : CalculatorContext) (calc : Calculator) :
  compiled_in p g = true ->
  selects p g (options_ calc) cc = true ->
  exists o calc' tr,
    Process p cc calc = (o, calc', tr) /\
    options_ calc' = options_ calc /\
    match converter_ g calc with
    | Some c =>
        (forall r, o <> Crashed r) /\
        calc' = calc /\
        count (is_Create g) tr = 0%nat /\ count (is_Convert g) tr = 1%nat
    | None =>
        count (is_Create g) tr = 1%nat /\
        match Create cc (factory_of p g) (options_ calc) with
        | Value (Some c) =>
            (forall r, o <> Crashed r) /\
            calc' = set_converter_ g (Some c) calc /\
            count (is_Convert g) tr = 1%nat
        | Value None =>
            o = Crashed NullDereference /\ calc' = calc /\
            count (is_Convert g) tr = 0%nat
        | NotOk e =>
            o = Failed e /\ calc' = calc /\ count (is_Convert g) tr = 0%nat
        end
    end.
Proof.
  intros Hc Hs.
  destruct (Process_selected g cc calc Hs) as (tr0 & ts & ow & oh & Hearly & Hrun).
  assert (H0 : forall f, (forall e, early e = true -> f e = false) -> count f tr0 = 0%nat)
    by (intros f Hf; apply count_early; assumption).
  assert (Hcr : count (is_Create g) tr0 = 0%nat)
    by (apply H0; intros e He; apply early_not_backend in He; apply He).
  assert (Hcv : count (is_Convert g) tr0 = 0%nat)
    by (apply H0; intros e He; apply early_not_backend in He; apply He).
  pose proof (builds_gpu_factory_of g) as Hf.
  rewrite Hrun. clear Hrun.
  unfold delegate_form, convert_form, prepend. rewrite Hc.
  destruct (converter_ g calc) as [c|] eqn:Hcache.
  - destruct (Convert cc c ts ow oh) as [mask|e].
    all: do 3 eexists; split; [reflexivity|].
    all: split; [reflexivity|]; split; [discriminate|]; split; [reflexivity|].
    all: rewrite !count_app, Hcr, Hcv; cbn; rewrite Bool.eqb_reflx; split; reflexivity.
  - destruct (Create cc (factory_of p g) (options_ calc)) as [[c|]|e].
    + destruct (Convert cc c ts ow oh) as [mask|e].
      all: do 3 eexists; split; [reflexivity|].
      all: split; [destruct g; reflexivity|].
      all: rewrite !count_app, Hcr, Hcv; cbn; rewrite Hf, Bool.eqb_reflx; cbn.
      all: split; [reflexivity|]; split; [discriminate|]; split; reflexivity.
    + do 3 eexists; split; [reflexivity|]. split; [reflexivity|].
      rewrite !count_app, Hcr, Hcv; cbn; rewrite Hf, Bool.eqb_reflx; cbn.
      repeat split; reflexivity.
    + do 3 eexists; split; [reflexivity|]. split; [reflexivity|].
      rewrite !count_app, Hcr, Hcv; cbn; rewrite Hf, Bool.eqb_reflx; cbn.
      repeat split; reflexivity.
Qed.

(** Any invocation: a cached converter of [g] stays, with no call of its
    factory; an empty cache is filled exactly when its factory builds a
    converter, which it does at most once. *)
Lemma Process_constructs (g : bool) (cc : CalculatorContext) (calc : Calculator) :
  let r := Process p cc calc in
  match converter_ g calc with
  | Some c =>
      converter_ g (snd (fst r)) = Some c /\
      count (is_Create g) (snd r) = 0%nat
  | None =>
      (count (is_Created g) (snd r) = 0%nat) \/
      (count (is_Created g) (snd r) = 1%nat /\ converter_ g (snd (fst r)) <> None)
  end.
Proof.
  cbv zeta.
  assert (Hsame : forall tr0,
             Forall (fun e : Event => early e = true) tr0 ->
             match converter_ g calc with
             | Some c => converter_ g calc = Some c /\ count (is_Create g) tr0 = 0%nat
             | None => count (is_Created g) tr0 = 0%nat \/
                       count (is_Created g) tr0 = 1%nat /\ converter_ g calc <> None
             end).
  { intros tr0 Hearly.
    destruct (converter_ g calc) as [c|]; [split; [reflexivity|] | left].
    all: apply count_early; [|exact Hearly].
    all: intros e He; apply early_not_backend in He; apply He. }
  destruct (Inputs_TENSORS cc) as [ts|] eqn:Hin.
  2:{ unfold Process. rewrite Hin. cbn. apply (Hsame []). constructor. }
  destruct (Process_run p cc calc Hin) as (tr0 & Hearly & _ & _ & Hrun).
  destruct (valid (activation (options_ calc)) ts);
    [|rewrite Hrun; cbn; apply Hsame; exact Hearly].
  destruct Hrun as (t0 & rest & h & w & c & _ & _ & _ & Hrun).
  destruct (output_size_of cc w h) as [size|];
    [|rewrite Hrun; cbn; apply Hsame; exact Hearly].
  rewrite Hrun. clear Hrun.
  assert (Hcr : count (is_Create g) tr0 = 0%nat)
    by (apply count_early; [|exact Hearly];
        intros e He; apply early_not_backend in He; apply He).
  assert (Hcd : count (is_Created g) tr0 = 0%nat)
    by (apply count_early; [|exact Hearly];
        intros e He; apply early_not_backend in He; apply He).
  pose proof (builds_gpu_factory_of (use_gpu_of p ts)) as Hf.
  set (g' := use_gpu_of p ts) in *.
  generalize (fst size) (snd size). intros ow oh.
  destruct calc as [o cpu gpu].
  delegate_cases g' cc
    ({| options_ := o; cpu_converter_ := cpu; gpu_converter_ := gpu |}) ts ow oh.
  all: cbn [fst snd]; rewrite ?count_app, ?Hcr, ?Hcd.
  all: destruct g, g'; cbn in *; rewrite ?Hf; subst; cbn.
  all: try (destruct cpu; [split; reflexivity | left; reflexivity]).
  all: try (destruct gpu; [split; reflexivity | left; reflexivity]).
  all: try discriminate.
  all: try (right; split; [reflexivity | discriminate]).
  all: try (left; reflexivity).
  all: split; reflexivity.
Qed.

Lemma run_cons (cc : CalculatorContext) (rest : list CalculatorContext)
    (calc calc' : Calculator) (o : Outcome unit) (tr : list Event) :
  Process p cc calc = (o, calc', tr) ->
  (forall r, o <> Crashed r) ->
  run p (cc :: rest) calc = (fst (run p rest calc'), tr ++ snd (run p rest calc')).
Proof.
  intros Hrun Hno. cbn [run]. rewrite Hrun.
  destruct o as [[]|c|r]; [| |exfalso; eapply Hno; reflexivity].
  all: destruct (run p rest calc') as [calc'' tr']; reflexivity.
Qed.

Lemma run_snd_cons (cc : CalculatorContext) (rest : list CalculatorContext)
    (calc : Calculator) :
  exists tr',
    snd (run p (cc :: rest) calc) = snd (Process p cc calc) ++ tr' /\
    (tr' = [] \/ tr' = snd (run p rest (snd (fst (Process p cc calc))))).
Proof.
  cbn [run].
  destruct (Process p cc calc) as [[[[]|c|r] calc'] tr]; cbn [fst snd].
  3:{ exists []. rewrite app_nil_r. auto. }
  all: destruct (run p rest calc') as [calc'' tr']; exists tr'; auto.
Qed.

(** Over any lifetime: while the cache of [g] is filled its factory is not
    called; and its factory builds a converter at most once. *)
Lemma run_constructs (g : bool) (ccs : list CalculatorContext) :
  forall calc : Calculator,
    (converter_ g calc <> None ->
     count (is_Create g) (snd (run p ccs calc)) = 0%nat) /\
    (count (is_Created g) (snd (run p ccs calc)) <= 1)%nat.
Proof.
  induction ccs as [|cc rest IH]; intros calc.
  - cbn. split; [reflexivity | lia].
  - destruct (run_snd_cons cc rest calc) as (tr' & -> & Htr').
    pose proof (Process_constructs g cc calc) as Hstep. cbv zeta in Hstep.
    destruct (IH (snd (fst (Process p cc calc)))) as (IH1 & IH2).
    rewrite !count_app.
    destruct (converter_ g calc) as [c|] eqn:Hcache.
    + destruct Hstep as (Hkeep & Hnone).
      assert (Hrest : count (is_Create g) tr' = 0%nat).
      { destruct Htr' as [-> | ->]; [reflexivity|].
        apply IH1. rewrite Hkeep. discriminate. }
      split.
      * intros _. rewrite Hnone, Hrest. reflexivity.
      * pose proof (count_Created_le_Create g (snd (Process p cc calc))).
        pose proof (count_Created_le_Create g tr'). lia.
    + split; [congruence|].
      destruct Hstep as [H0 | (H1 & Hfilled)].
      * rewrite H0. destruct Htr' as [-> | ->]; [cbn; lia | exact IH2].
      * rewrite H1.
        assert (Hrest : count (is_Create g) tr' = 0%nat).
        { destruct Htr' as [-> | ->]; [reflexivity|]. apply IH1. exact Hfilled. }
        pose proof (count_Created_le_Create g tr'). lia.
Qed.

(** Invocations that all select [g], once the cache of [g] is filled: no
    call of the factory, one [Convert] each. *)
Lemma run_selected_cached (g : bool) (ccs : list CalculatorContext) :
  compiled_in p g = true ->
  forall calc : Calculator,
    converter_ g calc <> None ->
    Forall (fun cc => selects p g (options_ calc) cc = true) ccs ->
    count (is_Create g) (snd (run p ccs calc)) = 0%nat /\
    count (is_Convert g) (snd (run p ccs calc)) = length ccs.
Proof.
  intros Hc. induction ccs as [|cc rest IH]; intros calc Hcache Hall.
  - split; reflexivity.
  - inversion Hall as [|? ? Hs Hrest]; subst.
    destruct (Process_selected_counts g cc calc Hc Hs)
      as (o & calc' & tr & Hrun & Hopt & Hcount).
    destruct (converter_ g calc) as [c|] eqn:Hcg; [|congruence].
    destruct Hcount as (Hno & -> & Hcr & Hcv).
    erewrite run_cons; [|exact Hrun|exact Hno]. cbn [snd length].
    destruct (IH calc) as (IH1 & IH2); [rewrite Hcg; discriminate | exact Hrest |].
    rewrite !count_app, Hcr, Hcv, IH1, IH2. split; reflexivity.
Qed.

(** C3. Over a lifetime of the calculator, from any state and through any
    invocations, the factory of each variant builds a converter at most
    once, and it is not called at all once the cache of the variant is
    filled.  From an empty cache, N >= 1 invocations that all select the
    same variant, the first of which sees its factory succeed, make one
    call of the factory and N calls of [Convert].  A construction that
    fails is returned as the failure of its invocation and leaves the
    cache empty, so the next invocation that selects the variant calls the
    factory again. *)
Theorem converter_constructed_at_most_once (g : bool) (calc : Calculator) :
  (forall ccs : list CalculatorContext,
     (count (is_Created g) (snd (run p ccs calc)) <= 1)%nat /\
     (converter_ g calc <> None ->
      count (is_Create g) (snd (run p ccs calc)) = 0%nat)) /\
  (forall (cc : CalculatorContext) rest,
     compiled_in p g = true ->
     converter_ g calc = None ->
     builds p g (options_ calc) cc = true ->
     Forall (fun cc' => selects p g (options_ calc) cc' = true) (cc :: rest) ->
     count (is_Create g) (snd (run p (cc :: rest) calc)) = 1%nat /\
     count (is_Convert g) (snd (run p (cc :: rest) calc)) = length (cc :: rest)) /\
  (forall (cc cc' : CalculatorContext) e,
     compiled_in p g = true ->
     converter_ g calc = None ->
     selects p g (options_ calc) cc = true ->
     selects p g (options_ calc) cc' = true ->
     Create cc (factory_of p g) (options_ calc) = NotOk e ->
     exists tr,
       Process p cc calc = (Failed e, calc, tr) /\
       count (is_Create g) tr = 1%nat /\
       count (is_Create g) (snd (Process p cc' calc)) = 1%nat /\
       count (is_Create g) (snd (run p [cc; cc'] calc)) = 2%nat).
Proof.
  split; [|split].
  - intros ccs. destruct (run_constructs g ccs calc) as (H1 & H2).
    split; assumption.
  - intros cc rest Hc Hcache Hb Hall.
    inversion Hall as [|? ? Hs Hrest]; subst.
    destruct (Process_selected_counts g cc calc Hc Hs)
      as (o & calc' & tr & Hrun & Hopt & Hcount).
    rewrite Hcache in Hcount. destruct Hcount as (Hcr & Hcount).
    unfold builds in Hb.
    destruct (Create cc (factory_of p g) (options_ calc)) as [[c|]|e];
      try discriminate.
    destruct Hcount as (Hno & Hcalc' & Hcv).
    erewrite run_cons; [|exact Hrun|exact Hno]. cbn [snd length].
    destruct (@run_selected_cached g rest Hc calc') as (R1 & R2).
    + rewrite Hcalc'. destruct g; discriminate.
    + rewrite Hopt. exact Hrest.
    + rewrite !count_app, Hcr, Hcv, R1, R2. split; reflexivity.
  - intros cc cc' e Hc Hcache Hs Hs' Hfail.
    destruct (Process_selected_counts g cc calc Hc Hs)
      as (o & calc1 & tr & Hrun & _ & Hcount).
    rewrite Hcache, Hfail in Hcount.
    destruct Hcount as (Hcr & -> & -> & _).
    destruct (Process_selected_counts g cc' calc Hc Hs')
      as (o' & calc2 & tr' & Hrun' & _ & Hcount').
    rewrite Hcache in Hcount'. destruct Hcount' as (Hcr' & _).
    exists tr. split; [exact Hrun|]. split; [exact Hcr|].
    split; [rewrite Hrun'; exact Hcr'|].
    erewrite run_cons; [|exact Hrun|discriminate].
    destruct (run_snd_cons cc' [] calc) as (tl & -> & Htl).
    rewrite Hrun'. cbn [snd fst run] in *.
    rewrite !count_app, Hcr, Hcr'.
    destruct Htl as [-> | ->]; reflexivity.
Qed.


(* ------------------------------------------------------------------- *)
(** *** Further properties of the member functions *)

(** Validation (lines 207-226) never changes the calculator and fails with
    InvalidArgument only.  It passes exactly when the batch has a first
    tensor of type [kFloat32] whose shape [GetHwcFromDims] accepts with the
    channel count of the activation: the other tensors of the batch are not
    looked at. *)
Theorem validate_accepts_iff (ts : list Tensor) (calc : Calculator) :
  let r := validate (Converter:=Converter) (Image:=Image) ts calc in
  snd (fst r) = calc /\
  (fst (fst r) = Done tt \/ fst (fst r) = Failed kInvalidArgument) /\
  (fst (fst r) = Done tt <->
   exists t0 rest h w c,
     ts = t0 :: rest /\
     element_type t0 = kFloat32 /\
     GetHwcFromDims (dims t0) = Value (h, w, c) /\
     c = match activation (options_ calc) with
         | NONE => 1 | SIGMOID => 1 | SOFTMAX => 2
         end).
Proof.
  cbv zeta.
  destruct (validate_run (Image:=Image) ts calc) as (tr & Hrun & _).
  rewrite Hrun. cbn [fst snd].
  split; [reflexivity|].
  destruct (valid (activation (options_ calc)) ts) eqn:Hv.
  - split; [left; reflexivity|]. split; [intros _|reflexivity].
    apply valid_inv in Hv. exact Hv.
  - split; [right; reflexivity|]. split; [discriminate|].
    intros (t0 & rest & h & w & c & -> & Hty & Hhwc & Hc).
    exfalso. unfold valid in Hv. rewrite Hty, Hhwc in Hv. cbn in Hv.
    rewrite Hc in Hv. destruct (activation (options_ calc)); discriminate.
Qed.

Lemma for_ready_on_gpu_queries (ts : list Tensor) (calc : Calculator) (i : nat) :
  forall k,
    In (ready_on_gpu_call i)
       (snd (for_ready_on_gpu (Converter:=Converter) (Image:=Image) k ts calc)) <->
    (k <= i)%nat /\ (i - k < length ts)%nat /\
    existsb ready_on_gpu (firstn (i - k) ts) = false.
Proof.
  induction ts as [|t rest IH]; intros k.
  - cbn. split; [contradiction | intros (_ & H & _); lia].
  - cbn [for_ready_on_gpu]. unfold bind, call.
    destruct (ready_on_gpu t) eqn:Ht.
    + cbn. split.
      * intros [H | []]. injection H as <-.
        rewrite Nat.sub_diag. cbn. repeat split; lia.
      * intros (Hk & Hlen & Hnone).
        destruct (i - k)%nat as [|n] eqn:Hd.
        -- left. f_equal. lia.
        -- cbn in Hnone. rewrite Ht in Hnone. discriminate.
    + specialize (IH (S k)).
      destruct (for_ready_on_gpu (S k) rest calc) as [[o calc'] tr].
      cbn in IH |- *. split.
      * intros [H | H].
        -- injection H as <-. rewrite Nat.sub_diag. cbn. repeat split; lia.
        -- apply IH in H as (Hk & Hlen & Hnone).
           replace (i - k)%nat with (S (i - S k)) by lia.
           cbn. rewrite Ht. cbn. repeat split; try lia. exact Hnone.
      * intros (Hk & Hlen & Hnone).
        destruct (i - k)%nat as [|n] eqn:Hd.
        -- left. f_equal. lia.
        -- right. apply IH.
           replace (i - S k)%nat with n by lia.
           cbn in Hnone. rewrite Ht in Hnone. cbn in Hnone.
           repeat split; try lia. exact Hnone.
Qed.

(** The residency scan (lines 197-204) stops at the first tensor that is
    ready on GPU: the tensor of index [i] is asked whether it is ready
    exactly when [CanUseGpu()] holds, [i] is within the batch and no tensor
    before it is ready. *)
Theorem residency_scan_stops_at_first_ready (ts : list Tensor)
    (calc : Calculator) (i : nat) :
  In (ready_on_gpu_call i)
     (snd (select_use_gpu (Converter:=Converter) (Image:=Image) p ts calc)) <->
  CanUseGpu p = true /\ (i < length ts)%nat /\
  existsb ready_on_gpu (firstn i ts) = false.
Proof.
  unfold select_use_gpu, bind, call.
  destruct (CanUseGpu p).
  - pose proof (for_ready_on_gpu_queries ts calc i 0) as H.
    destruct (for_ready_on_gpu 0 ts calc) as [[o calc'] tr].
    cbn in H |- *. rewrite Nat.sub_0_r in H. split.
    + intros [Hx | Hx]; [discriminate|].
      apply H in Hx as (_ & H1 & H2). auto.
    + intros (_ & H1 & H2). right. apply H. repeat split; [lia | exact H1 | exact H2].
  - cbn. split; [intros [Hx | []]; discriminate | intros (Hx & _); discriminate].
Qed.

Lemma set_converter_same (g : bool) (calc : Calculator) :
  set_converter_ g (converter_ g calc) calc = calc.
Proof. destruct calc, g; reflexivity. Qed.

(** [InitConverterIfNecessary], with the variant compiled in: what it does
    on the cache it finds. *)
Lemma InitConverterIfNecessary_run (use_gpu : bool) (cc : CalculatorContext)
    (calc : Calculator) :
  compiled_in p use_gpu = true ->
  InitConverterIfNecessary p use_gpu cc calc =
    match converter_ use_gpu calc with
    | Some _ => (Done tt, calc, [])
    | None =>
        let r := Create cc (factory_of p use_gpu) (options_ calc) in
        match r with
        | Value created =>
            (Done tt, set_converter_ use_gpu created calc,
             [Create_call (factory_of p use_gpu) r])
        | NotOk e => (Failed e, calc, [Create_call (factory_of p use_gpu) r])
        end
    end.
Proof.
  unfold InitConverterIfNecessary, compiled_in, converter_, factory_of.
  destruct calc as [o cpu gpu].
  destruct use_gpu;
    [ destruct (MEDIAPIPE_DISABLE_GPU p) | destruct (MEDIAPIPE_DISABLE_OPENCV p) ];
    try discriminate; intros _.
  - destruct gpu as [c|]; [reflexivity|].
    unfold bind, member, call, assign, MP_ASSIGN_OR_RETURN, ret, fail; cbn.
    destruct (Create cc (gpu_factory p) o); reflexivity.
  - destruct cpu as [c|]; [reflexivity|].
    unfold bind, member, call, assign, MP_ASSIGN_OR_RETURN, ret, fail; cbn.
    destruct (Create cc CreateOpenCvConverter o); reflexivity.
Qed.

Lemma InitConverterIfNecessary_compiled_out (use_gpu : bool)
    (cc : CalculatorContext) (calc : Calculator) :
  compiled_in p use_gpu = false ->
  InitConverterIfNecessary p use_gpu cc calc = (Failed RET_CHECK_FAIL_code, calc, []).
Proof.
  unfold InitConverterIfNecessary, compiled_in.
  destruct use_gpu;
    [ destruct (MEDIAPIPE_DISABLE_GPU p) | destruct (MEDIAPIPE_DISABLE_OPENCV p) ];
    try discriminate; reflexivity.
Qed.

(** A second call of [InitConverterIfNecessary] for the same variant, in
    this or in a later invocation.  When the first call returned OK and
    left a converter, the second does nothing.  When the first call failed
    in the factory, or returned OK with the null pointer of the factory,
    the calculator is as it was before the first call and the second call
    asks the factory again. *)
Theorem InitConverterIfNecessary_again (use_gpu : bool)
    (cc cc' : CalculatorContext) (calc : Calculator) :
  let r := InitConverterIfNecessary p use_gpu cc calc in
  let calc1 := snd (fst r) in
  let r' := InitConverterIfNecessary p use_gpu cc' calc1 in
  let f := factory_of p use_gpu in
  (fst (fst r) = Done tt -> converter_ use_gpu calc1 <> None ->
   r' = (Done tt, calc1, [])) /\
  (compiled_in p use_gpu = true -> converter_ use_gpu calc1 = None ->
   calc1 = calc /\
   snd r = [Create_call f (Create cc f (options_ calc))] /\
   snd r' = [Create_call f (Create cc' f (options_ calc))]) /\
  (forall e, compiled_in p use_gpu = true -> fst (fst r) = Failed e ->
     converter_ use_gpu calc1 = None /\
     Create cc f (options_ calc) = NotOk e).
Proof.
  cbv zeta.
  destruct (compiled_in p use_gpu) eqn:Hc.
  2:{ rewrite (InitConverterIfNecessary_compiled_out _ _ _ Hc). cbn.
      repeat split; intros; discriminate. }
  rewrite (InitConverterIfNecessary_run _ cc _ Hc).
  destruct (converter_ use_gpu calc) as [c|] eqn:Hcache; cbn [fst snd].
  - split; [|split].
    + intros _ _. rewrite (InitConverterIfNecessary_run _ cc' _ Hc), Hcache.
      reflexivity.
    + intros _ Hn. congruence.
    + intros e _ He. discriminate He.
  - cbv zeta.
    destruct (Create cc (factory_of p use_gpu) (options_ calc)) as [created|e]
      eqn:Hcreate; cbn [fst snd].
    + assert (Hset : converter_ use_gpu (set_converter_ use_gpu created calc) = created)
        by (destruct use_gpu; reflexivity).
      split; [|split].
      * intros _ Hn. rewrite (InitConverterIfNecessary_run _ cc' _ Hc).
        destruct (converter_ use_gpu (set_converter_ use_gpu created calc));
          [reflexivity | contradiction].
      * intros _ Hn. rewrite Hset in Hn. subst created.
        rewrite <- Hcache at 1. rewrite set_converter_same.
        split; [reflexivity|]. split; [reflexivity|].
        rewrite <- Hcache at 1. rewrite set_converter_same.
        rewrite (InitConverterIfNecessary_run _ cc' _ Hc), Hcache. cbv zeta.
        destruct (Create cc' (factory_of p use_gpu) (options_ calc)); reflexivity.
      * intros e _ He. discriminate He.
    + split; [|split].
      * intros He. discriminate He.
      * intros _ _. split; [reflexivity|]. split; [reflexivity|].
        rewrite (InitConverterIfNecessary_run _ cc' _ Hc), Hcache. cbv zeta.
        destruct (Create cc' (factory_of p use_gpu) (options_ calc)); reflexivity.
      * intros e' _ He. injection He as <-. split; [exact Hcache | reflexivity].
Qed.

(** What [InitConverterIfNecessary] leaves.  It does not test what the
    factory returns: after an OK return the converter of the variant is
    null exactly when the cache was empty and the factory returned OK with
    a null pointer.  A converter that was there is kept, with no call of
    the factory; a non-OK return leaves the calculator as it was; and the
    options and the converter of the other variant are never changed. *)
Theorem InitConverterIfNecessary_post (use_gpu : bool) (cc : CalculatorContext)
    (calc : Calculator) :
  let r := InitConverterIfNecessary p use_gpu cc calc in
  (fst (fst r) = Done tt ->
   (converter_ use_gpu (snd (fst r)) = None <->
    converter_ use_gpu calc = None /\
    Create cc (factory_of p use_gpu) (options_ calc) = Value None)) /\
  (forall c, converter_ use_gpu calc = Some c ->
     converter_ use_gpu (snd (fst r)) = Some c /\ snd r = []) /\
  (fst (fst r) <> Done tt -> snd (fst r) = calc) /\
  options_ (snd (fst r)) = options_ calc /\
  converter_ (negb use_gpu) (snd (fst r)) = converter_ (negb use_gpu) calc.
Proof.
  cbv zeta.
  destruct (compiled_in p use_gpu) eqn:Hc.
  2:{ rewrite (InitConverterIfNecessary_compiled_out _ _ _ Hc). cbn.
      repeat split; try discriminate; try congruence. }
  rewrite (InitConverterIfNecessary_run _ cc _ Hc).
  destruct (converter_ use_gpu calc) as [c|] eqn:Hcache; cbn [fst snd].
  - split; [intros _; rewrite Hcache; split;
              [discriminate | intros (Hx & _); discriminate]|].
    split; [intros c0 Hc0; split; [rewrite Hcache; exact Hc0 | reflexivity]|].
    split; [intros _; reflexivity|]. split; reflexivity.
  - cbv zeta.
    destruct (Create cc (factory_of p use_gpu) (options_ calc)) as [created|e];
      cbn [fst snd].
    + assert (Hset : converter_ use_gpu (set_converter_ use_gpu created calc) = created)
        by (destruct use_gpu; reflexivity).
      rewrite Hset.
      split; [intros _; split; [intros ->; split; reflexivity
                               | intros (_ & Hx); congruence]|].
      split; [intros c0 Hc0; discriminate Hc0|].
      split; [intros Hx; contradiction Hx; reflexivity|].
      split; destruct use_gpu; reflexivity.
    + split; [intros Hx; discriminate Hx|].
      split; [intros c0 Hc0; discriminate Hc0|].
      split; [intros _; reflexivity|]. split; reflexivity.
Qed.

(** Every run of [Process] goes one of the eight ways. *)
Lemma Process_way (cc : CalculatorContext) (calc : Calculator) :
  Way p cc calc (fst (fst (Process p cc calc))) (snd (fst (Process p cc calc)))
      (snd (Process p cc calc)).
Proof.
  destruct (Inputs_TENSORS cc) as [ts|] eqn:Hin.
  2:{ unfold Process. rewrite Hin. cbn. apply Way_idle. exact Hin. }
  destruct (Process_run p cc calc Hin) as (tr0 & Hearly & _ & _ & Hrun).
  destruct (valid (activation (options_ calc)) ts) eqn:Hv.
  2:{ rewrite Hrun. cbn. eapply Way_invalid; eassumption. }
  destruct Hrun as (t0 & rest & h & w & c & Hts & Hhwc & _ & Hrun).
  destruct (output_size_of cc w h) as [[ow oh]|] eqn:Hsz.
  2:{ rewrite Hrun. cbn. eapply Way_no_size; try eassumption.
      unfold output_size_of in Hsz.
      destruct (Inputs_OUTPUT_SIZE cc) as [|[?|]]; congruence. }
  assert (Hacc : Accepted p cc calc ts (use_gpu_of p ts) ow oh).
  { constructor; try assumption; try reflexivity.
    exists t0, rest, h, w, c. auto. }
  rewrite Hrun. cbn [fst snd]. clear Hrun.
  set (g := use_gpu_of p ts) in *.
  unfold delegate_form, convert_form, prepend.
  destruct (compiled_in p g) eqn:Hc.
  2:{ cbn. rewrite app_nil_r. eapply Way_compiled_out; eassumption. }
  destruct (converter_ g calc) as [conv|] eqn:Hcache.
  - assert (Hacq : Acquired p cc calc g conv calc []) by (constructor; exact Hcache).
    destruct (Convert cc conv ts ow oh) as [mask|e] eqn:Hconv; cbn.
    + eapply Way_converted with (tr1 := []); eassumption.
    + eapply Way_not_converted with (tr1 := []); eassumption.
  - destruct (Create cc (factory_of p g) (options_ calc)) as [[conv|]|e] eqn:Hcreate.
    + assert (Hacq : Acquired p cc calc g conv (set_converter_ g (Some conv) calc)
                       [Create_call (factory_of p g) (Value (Some conv))])
        by (constructor; assumption).
      destruct (Convert cc conv ts ow oh) as [mask|e] eqn:Hconv; cbn.
      * eapply Way_converted
          with (tr1 := [Create_call (factory_of p g) (Value (Some conv))]);
          eassumption.
      * eapply Way_not_converted
          with (tr1 := [Create_call (factory_of p g) (Value (Some conv))]);
          eassumption.
    + cbn. eapply Way_null; eassumption.
    + cbn. eapply Way_not_built; eassumption.
Qed.

Lemma early_plain (e : Event) :
  early e = true ->
  is_Add e = false /\
  (forall f r, e <> Create_call f r) /\
  (forall g c ts ow oh, e <> Convert_call g c ts ow oh) /\
  (forall mask t, e <> Outputs_MASK_Add mask t).
Proof.
  destruct e as [d| |i| | |[|]|c x| |f r|g c ts w h|m t]; cbn; try discriminate;
    intros _; repeat split; intros; discriminate.
Qed.

Lemma In_early (tr0 : list Event) (e : Event) :
  Forall (fun e => early e = true) tr0 -> In e tr0 -> early e = true.
Proof.
  intros H Hin. rewrite Forall_forall in H. apply H. exact Hin.
Qed.

Lemma Acquired_cache (cc : CalculatorContext) (calc calc1 : Calculator)
    (g : bool) (c : Converter) (tr1 : list Event) :
  Acquired p cc calc g c calc1 tr1 ->
  converter_ g calc1 = Some c /\
  options_ calc1 = options_ calc /\
  converter_ (negb g) calc1 = converter_ (negb g) calc /\
  (forall c0, converter_ g calc = Some c0 -> c0 = c) /\
  Forall (fun e => early e = false /\ is_Add e = false /\ is_Conversion e = false) tr1.
Proof.
  intros [Hc | Hn Hb].
  - split; [exact Hc|]. split; [reflexivity|]. split; [reflexivity|].
    split; [intros c0 H0; congruence | constructor].
  - split; [destruct g; reflexivity|]. split; [destruct g; reflexivity|].
    split; [destruct g; reflexivity|].
    split; [intros c0 H0; congruence | repeat constructor].
Qed.

Ltac ways cc calc :=
  let Hw := fresh "Hw" in
  pose proof (Process_way cc calc) as Hw;
  destruct (Process p cc calc) as [[?o ?calc'] ?tr];
  cbn [fst snd] in *;
  inversion Hw; subst; clear Hw.

(** [Process] changes the calculator in one way only: it fills the empty
    cache of the selected variant with the converter its factory has just
    built, on a batch that passed validation.  In every other case, failure
    or not, the calculator is left exactly as it was. *)
Theorem Process_state_change (cc : CalculatorContext) (calc : Calculator) :
  let calc' := snd (fst (Process p cc calc)) in
  calc' = calc \/
  exists ts c,
    Inputs_TENSORS cc = Some ts /\
    fst (fst (validate (Converter:=Converter) (Image:=Image) ts calc)) = Done tt /\
    compiled_in p (use_gpu_of p ts) = true /\
    converter_ (use_gpu_of p ts) calc = None /\
    Create cc (factory_of p (use_gpu_of p ts)) (options_ calc) = Value (Some c) /\
    calc' = set_converter_ (use_gpu_of p ts) (Some c) calc.
Proof.
  cbv zeta. ways cc calc; try (left; reflexivity).
  all: match goal with
       | Ha : Accepted _ _ _ _ _ _ _, Hq : Acquired _ _ _ _ _ _ _ |- _ =>
           destruct Ha as [Hb Hv -> _]; destruct Hq as [Hc | Hn Hcr];
           [left; reflexivity | right]
       end.
  all: exists ts, c; repeat split; try assumption.
  all: destruct (validate_run (Image:=Image) ts calc) as (trv & Hrun & _);
    rewrite Hrun, Hv; reflexivity.
Qed.

Lemma Process_keeps (cc : CalculatorContext) (calc : Calculator) :
  options_ (snd (fst (Process p cc calc))) = options_ calc /\
  forall g c, converter_ g calc = Some c ->
              converter_ g (snd (fst (Process p cc calc))) = Some c.
Proof.
  ways cc calc; try (split; [reflexivity | auto]).
  all: match goal with
       | Hq : Acquired _ _ _ ?g ?c _ _ |- _ =>
           apply Acquired_cache in Hq as (Hs & Ho & Hother & Hsame & _)
       end.
  all: split; [exact Ho|]; intros g' c' Hc'.
  all: destruct (Bool.eqb g' g) eqn:Hg;
    [ apply Bool.eqb_prop in Hg; subst g'; rewrite Hs; f_equal; symmetry;
      apply Hsame; exact Hc'
    | assert (g' = negb g) as -> by (destruct g', g; first [reflexivity | discriminate Hg]);
      rewrite Hother; exact Hc' ].
Qed.

(** Over a lifetime the options are never changed by [Process], and a cached
    converter is never dropped or replaced: whatever a cache holds, it
    holds for good. *)
Theorem run_keeps_options_and_converters (ccs : list CalculatorContext) :
  forall calc : Calculator,
    options_ (fst (run p ccs calc)) = options_ calc /\
    forall g c, converter_ g calc = Some c ->
                converter_ g (fst (run p ccs calc)) = Some c.
Proof.
  induction ccs as [|cc rest IH]; intros calc.
  - cbn. auto.
  - destruct (Process_keeps cc calc) as (Ho & Hk).
    cbn [run]. destruct (Process p cc calc) as [[o calc'] tr]. cbn [fst snd] in *.
    destruct (IH calc') as (IHo & IHk).
    assert (Hgo : options_ (fst (let (calc'', tr') := run p rest calc' in
                                 (calc'', tr ++ tr'))) = options_ calc /\
                  forall g c, converter_ g calc = Some c ->
                    converter_ g (fst (let (calc'', tr') := run p rest calc' in
                                       (calc'', tr ++ tr'))) = Some c).
    { destruct (run p rest calc') as [calc'' tr']. cbn [fst] in *.
      split; [congruence | intros g c Hc; apply IHk, Hk, Hc]. }
    destruct o as [[]|e|r]; cbn [fst]; auto.
Qed.

Lemma Forall_not_Add_early (tr0 : list Event) :
  Forall (fun e => early e = true) tr0 ->
  Forall (fun e => is_Add e = false) tr0.
Proof.
  intros H. eapply Forall_impl; [|exact H].
  cbn. intros e He. apply early_plain in He. apply He.
Qed.

Lemma Forall_not_Add_acquired (tr1 : list Event) :
  Forall (fun e => early e = false /\ is_Add e = false /\ is_Conversion e = false) tr1 ->
  Forall (fun e => is_Add e = false) tr1.
Proof.
  intros H. eapply Forall_impl; [|exact H]. cbn. tauto.
Qed.

(** The log of [Process] has no emission, unless the invocation had a batch
    and returned OK; then the emission is its last call. *)
Lemma Process_adds (cc : CalculatorContext) (calc : Calculator) :
  let o := fst (fst (Process p cc calc)) in
  let tr := snd (Process p cc calc) in
  (Forall (fun e => is_Add e = false) tr /\
   ~ (o = Done tt /\ Inputs_TENSORS cc <> None)) \/
  (exists pre g c ts ow oh mask,
     Forall (fun e => is_Add e = false) pre /\
     tr = (pre ++ [Convert_call g c ts ow oh]) ++
          [Outputs_MASK_Add mask (InputTimestamp cc)] /\
     Convert cc c ts ow oh = Value mask /\
     o = Done tt /\ Inputs_TENSORS cc <> None).
Proof.
  cbv zeta. ways cc calc.
  - left. split; [constructor | intros (_ & Hx); congruence].
  - left. split; [apply Forall_not_Add_early; assumption | intros (Hx & _); discriminate].
  - left. split; [apply Forall_not_Add_early; assumption | intros (Hx & _); discriminate].
  - left. split; [apply Forall_not_Add_early; assumption | intros (Hx & _); discriminate].
  - left. split; [|intros (Hx & _); discriminate].
    apply Forall_app. split; [apply Forall_not_Add_early; assumption|].
    repeat constructor.
  - left. split; [|intros (Hx & _); discriminate].
    apply Forall_app. split; [apply Forall_not_Add_early; assumption|].
    repeat constructor.
  - left. split; [|intros (Hx & _); discriminate].
    match goal with
    | Hq : Acquired _ _ _ _ _ _ _ |- _ =>
        apply Acquired_cache in Hq as (_ & _ & _ & _ & Hq)
    end.
    apply Forall_app. split; [apply Forall_not_Add_early; assumption|].
    apply Forall_app. split; [apply Forall_not_Add_acquired; assumption|].
    repeat constructor.
  - right.
    match goal with
    | Ha : Accepted _ _ _ _ _ _ _, Hq : Acquired _ _ _ _ _ _ _ |- _ =>
        destruct Ha as [Hb _ _ _];
        apply Acquired_cache in Hq as (_ & _ & _ & _ & Hq)
    end.
    exists (tr0 ++ tr1), g, c, ts, ow, oh, mask.
    split; [|split; [|split; [assumption | split; [reflexivity | congruence]]]].
    + apply Forall_app. split;
        [apply Forall_not_Add_early | apply Forall_not_Add_acquired]; assumption.
    + rewrite <- !app_assoc. reflexivity.
Qed.

Lemma count_none (f : Event -> bool) (tr : list Event) :
  Forall (fun e => f e = false) tr -> count f tr = 0%nat.
Proof.
  intros H. unfold count. rewrite filter_none; [reflexivity | exact H].
Qed.

(** The MASK output.  An invocation emits at most one mask, and it emits one
    exactly when it had a batch and returned OK.  The mask is the one
    [Convert] returned in this invocation, it carries the timestamp of the
    input, and its emission is the last call of the invocation. *)
Theorem mask_emitted_iff_ok (cc : CalculatorContext) (calc : Calculator) :
  let o := fst (fst (Process p cc calc)) in
  let tr := snd (Process p cc calc) in
  (count is_Add tr <= 1)%nat /\
  (count is_Add tr = 1%nat <-> o = Done tt /\ Inputs_TENSORS cc <> None) /\
  forall mask t,
    In (Outputs_MASK_Add mask t) tr ->
    t = InputTimestamp cc /\
    exists tr' g c ts ow oh,
      tr = tr' ++ [Convert_call g c ts ow oh; Outputs_MASK_Add mask t] /\
      Convert cc c ts ow oh = Value mask.
Proof.
  cbv zeta.
  destruct (Process_adds cc calc)
    as [(Hno & Hnot) | (pre & g & c & ts & ow & oh & mask & Hpre & Htr & Hconv & Ho & Hin)].
  - rewrite (count_none _ Hno).
    split; [lia|]. split; [split; [discriminate | intros H; contradiction]|].
    intros mask t Hx. rewrite Forall_forall in Hno.
    apply Hno in Hx. discriminate Hx.
  - rewrite Htr, !count_app, (count_none _ Hpre). cbn.
    split; [lia|]. split; [split; [intros _; split; assumption | reflexivity]|].
    intros mask' t Hx.
    apply in_app_or in Hx as [Hx | Hx];
      [apply in_app_or in Hx as [Hx | Hx]|].
    + rewrite Forall_forall in Hpre. apply Hpre in Hx. discriminate Hx.
    + destruct Hx as [Hx | []]. discriminate Hx.
    + destruct Hx as [Hx | []]. injection Hx as <- <-.
      split; [reflexivity|].
      exists pre, g, c, ts, ow, oh. split; [|exact Hconv].
      rewrite <- app_assoc. reflexivity.
Qed.

Ltac early_absurd :=
  exfalso;
  match goal with
  | H : Forall (fun e => early e = true) ?tr0, Hin : In _ ?tr0 |- _ =>
      rewrite Forall_forall in H; apply H in Hin; discriminate Hin
  end.

Ltac acquired_absurd :=
  exfalso;
  match goal with
  | H : Forall (fun e => early e = false /\ _) ?tr1, Hin : In _ ?tr1 |- _ =>
      rewrite Forall_forall in H; apply H in Hin;
      destruct Hin as (_ & ? & ?); discriminate
  end.

(** [Convert] is only ever called on the converter that the cache of the
    selected variant holds when the invocation ends, and on the whole batch
    of the invocation.  When it fails, its status is the status of the
    invocation and nothing is emitted; the converter stays cached, also
    when it was built in this very invocation. *)
Theorem Convert_on_cached_converter (cc : CalculatorContext)
    (calc calc' : Calculator) (o : Outcome unit) (tr : list Event)
    (g : bool) (c : Converter) (ts : list Tensor) (ow oh : Z) :
  Process p cc calc = (o, calc', tr) ->
  In (Convert_call g c ts ow oh) tr ->
  Inputs_TENSORS cc = Some ts /\
  g = use_gpu_of p ts /\
  converter_ g calc' = Some c /\
  (forall e, Convert cc c ts ow oh = NotOk e ->
             o = Failed e /\ count is_Add tr = 0%nat).
Proof.
  intros Hrun Hin.
  pose proof (Process_way cc calc) as Hw. rewrite Hrun in Hw.
  cbn [fst snd] in Hw.
  inversion Hw; subst; clear Hw.
  all: repeat match goal with
         | Hq : Acquired _ _ _ _ _ _ _ |- _ =>
             apply Acquired_cache in Hq as (Hs & _ & _ & _ & Hq)
         end.
  all: repeat (apply in_app_or in Hin; destruct Hin as [Hin | Hin]).
  all: try contradiction.
  all: try early_absurd.
  all: try acquired_absurd.
  all: cbn in Hin; repeat destruct Hin as [Hin | Hin]; try contradiction;
    try discriminate Hin.
  all: injection Hin as <- <- <- <- <-.
  all: match goal with
       | Ha : Accepted _ _ _ _ _ _ _ |- _ => destruct Ha as [Hb _ Hg _]
       end.
  all: split; [exact Hb|]; split; [exact Hg|]; split; [exact Hs|].
  all: intros e' He'; try congruence.
  assert (e' = e) as -> by congruence.
  split; [reflexivity|].
  match goal with
  | H0 : Forall (fun e => early e = true) _,
    H1 : Forall (fun e => early e = false /\ _) _ |- _ =>
      rewrite !count_app, (count_none _ (Forall_not_Add_early H0)),
        (count_none _ (Forall_not_Add_acquired H1))
  end.
  reflexivity.
Qed.





(** The causes of a failure.  When [Process] returns a non-OK status, either
    validation failed (InvalidArgument), or the branch of the selected
    variant is compiled out (the [RET_CHECK_FAIL] status), or the factory of
    the selected variant was called on an empty cache and returned this
    status, or [Convert] was called and returned this status.  In the first
    three cases the calculator is left as it was and nothing was asked of a
    converter. *)
Theorem Process_failure_causes (cc : CalculatorContext)
    (calc calc' : Calculator) (e : StatusCode) (tr : list Event) :
  Process p cc calc = (Failed e, calc', tr) ->
  exists ts,
    Inputs_TENSORS cc = Some ts /\
    let g := use_gpu_of p ts in
    ((e = kInvalidArgument /\
      fst (fst (validate (Converter:=Converter) (Image:=Image) ts calc))
        = Failed kInvalidArgument /\
      calc' = calc /\ Forall (fun e => is_backend e = false) tr) \/
     (e = RET_CHECK_FAIL_code /\ compiled_in p g = false /\
      calc' = calc /\ Forall (fun e => is_backend e = false) tr) \/
     (converter_ g calc = None /\
      Create cc (factory_of p g) (options_ calc) = NotOk e /\
      calc' = calc /\ count is_Conversion tr = 0%nat) \/
     (exists c ow oh,
        In (Convert_call g c ts ow oh) tr /\
        Convert cc c ts ow oh = NotOk e)).
Proof.
  intros Hrun.
  pose proof (Process_way cc calc) as Hw. rewrite Hrun in Hw.
  cbn [fst snd] in Hw.
  assert (Hb : forall tr0 : list Event,
             Forall (fun e => early e = true) tr0 ->
             Forall (fun e => is_backend e = false) tr0).
  { intros tr0 H0. eapply Forall_impl; [|exact H0].
    cbn. intros x Hx. apply early_not_backend in Hx. tauto. }
  assert (Hval : forall ts,
             valid (activation (options_ calc)) ts = false ->
             fst (fst (validate (Converter:=Converter) (Image:=Image) ts calc))
               = Failed kInvalidArgument).
  { intros ts Hv. destruct (validate_run (Image:=Image) ts calc) as (trv & Hr & _).
    rewrite Hr, Hv. reflexivity. }
  inversion Hw; subst; clear Hw.
  - exists ts. split; [assumption|]. cbv zeta. left.
    split; [reflexivity|]. split; [|split; [reflexivity | auto]].
    apply Hval. assumption.
  - match goal with Ha : Accepted _ _ _ _ _ _ _ |- _ => destruct Ha as [Hi _ -> _] end.
    exists ts. split; [assumption|]. cbv zeta. right. left. auto.
  - match goal with Ha : Accepted _ _ _ _ _ _ _ |- _ => destruct Ha as [Hi _ -> _] end.
    exists ts. split; [assumption|]. cbv zeta. right. right. left.
    split; [assumption|]. split; [assumption|]. split; [reflexivity|].
    rewrite count_app. rewrite count_early; [reflexivity | | assumption].
    intros x Hx. destruct x as [d| |i| | |[|]|c x| |f r|g c ts' w h|m t];
      cbn in Hx |- *; congruence.
  - match goal with Ha : Accepted _ _ _ _ _ _ _ |- _ => destruct Ha as [Hi _ -> _] end.
    exists ts. split; [assumption|]. cbv zeta. right. right. right.
    exists c, ow, oh. split; [|assumption].
    apply in_or_app. right. apply in_or_app. right. left. reflexivity.
Qed.

(** A factory is called at most once in an invocation, and only the
    factory of the selected variant, with the options the calculator holds
    (those of [Open], not those of the invocation), when the cache of that
    variant is empty, the variant is compiled in and the batch has passed
    validation; the event logs what it returned. *)
Theorem Create_call_conditions (cc : CalculatorContext) (calc : Calculator)
    (f : Factory) (r : StatusOr (option Converter)) :
  In (Create_call f r) (snd (Process p cc calc)) ->
  exists ts,
    Inputs_TENSORS cc = Some ts /\
    f = factory_of p (use_gpu_of p ts) /\
    r = Create cc f (options_ calc) /\
    converter_ (use_gpu_of p ts) calc = None /\
    compiled_in p (use_gpu_of p ts) = true /\
    fst (fst (validate (Converter:=Converter) (Image:=Image) ts calc)) = Done tt /\
    count (fun e => is_Create true e || is_Create false e)
          (snd (Process p cc calc)) = 1%nat.
Proof.
  intros Hin.
  assert (Hval : forall ts,
             valid (activation (options_ calc)) ts = true ->
             fst (fst (validate (Converter:=Converter) (Image:=Image) ts calc)) = Done tt).
  { intros ts Hv. destruct (validate_run (Image:=Image) ts calc) as (trv & Hrun & _).
    rewrite Hrun, Hv. reflexivity. }
  assert (Hcount : forall tr0 : list Event,
             Forall (fun e => early e = true) tr0 ->
             count (fun e => is_Create true e || is_Create false e) tr0 = 0%nat).
  { intros tr0 H0. apply count_early; [|exact H0].
    intros x Hx. apply early_not_backend in Hx as (_ & Hx & _).
    rewrite !Hx. reflexivity. }
  pose proof (builds_gpu_factory_of) as Hf.
  ways cc calc.
  all: repeat (apply in_app_or in Hin; destruct Hin as [Hin | Hin]).
  all: try contradiction.
  all: try early_absurd.
  all: try (cbn in Hin; repeat destruct Hin as [Hin | Hin]; try contradiction;
            discriminate Hin).
  - destruct Hin as [Hin | []]. injection Hin as <- <-.
    match goal with Ha : Accepted _ _ _ _ _ _ _ |- _ => destruct Ha as [Hi Hv -> _] end.
    exists ts. repeat split; auto.
    rewrite count_app, (Hcount _ ltac:(eassumption)). cbn.
    rewrite Hf. destruct (use_gpu_of p ts); reflexivity.
  - destruct Hin as [Hin | []]. injection Hin as <- <-.
    match goal with Ha : Accepted _ _ _ _ _ _ _ |- _ => destruct Ha as [Hi Hv -> _] end.
    exists ts. repeat split; auto.
    rewrite count_app, (Hcount _ ltac:(eassumption)). cbn.
    rewrite Hf. destruct (use_gpu_of p ts); reflexivity.
  - match goal with Ha : Accepted _ _ _ _ _ _ _ |- _ => destruct Ha as [Hi Hv -> _] end.
    match goal with Hq : Acquired _ _ _ _ _ _ _ |- _ => destruct Hq as [Hc | Hn Hcr] end;
      [contradiction|].
    destruct Hin as [Hin | []]. injection Hin as <- <-.
    exists ts. repeat split; auto.
    rewrite !count_app, (Hcount _ ltac:(eassumption)). cbn.
    rewrite Hf. destruct (use_gpu_of p ts); reflexivity.
  - match goal with Ha : Accepted _ _ _ _ _ _ _ |- _ => destruct Ha as [Hi Hv -> _] end.
    match goal with Hq : Acquired _ _ _ _ _ _ _ |- _ => destruct Hq as [Hc | Hn Hcr] end;
      [contradiction|].
    destruct Hin as [Hin | []]. injection Hin as <- <-.
    exists ts. repeat split; auto.
    rewrite !count_app, (Hcount _ ltac:(eassumption)). cbn.
    rewrite Hf. destruct (use_gpu_of p ts); reflexivity.
Qed.

Lemma count_Created_early (g : bool) (tr0 : list Event) :
  Forall (fun e => early e = true) tr0 -> count (is_Created g) tr0 = 0%nat.
Proof.
  intros H. apply count_early; [|exact H].
  intros e He. apply early_not_backend in He. apply He.
Qed.

Lemma run_keeps_cached (g : bool) (ccs : list CalculatorContext) :
  forall calc : Calculator,
    converter_ g calc <> None -> converter_ g (fst (run p ccs calc)) <> None.
Proof.
  induction ccs as [|cc rest IH]; intros calc Hc; [exact Hc|].
  destruct (Process_keeps cc calc) as (_ & Hk).
  cbn [run]. destruct (Process p cc calc) as [[o calc'] tr]. cbn [fst snd] in *.
  assert (Hc' : converter_ g calc' <> None).
  { destruct (converter_ g calc) as [c|] eqn:Hg; [|congruence].
    rewrite (Hk g c Hg). discriminate. }
  specialize (IH calc' Hc').
  destruct (run p rest calc') as [calc'' tr'].
  destruct o as [[]|e|r]; cbn [fst] in *; assumption.
Qed.

(** One invocation on an empty cache of [g]: the cache is filled exactly
    when the factory of [g] built a converter. *)
Lemma Process_built (g : bool) (cc : CalculatorContext) (calc : Calculator) :
  converter_ g calc = None ->
  (count (is_Created g) (snd (Process p cc calc)) = 0%nat /\
   converter_ g (snd (fst (Process p cc calc))) = None) \/
  (count (is_Created g) (snd (Process p cc calc)) = 1%nat /\
   converter_ g (snd (fst (Process p cc calc))) <> None).
Proof.
  intros Hnone.
  pose proof (builds_gpu_factory_of) as Hf.
  ways cc calc.
  all: rewrite ?count_app.
  all: repeat match goal with
         | H : Forall (fun e => early e = true) _ |- _ =>
             rewrite (count_Created_early g H); clear H
         end.
  all: try (left; split; [reflexivity | exact Hnone]).
  all: match goal with
       | Hq : Acquired _ _ _ ?g0 _ _ _ |- _ =>
           destruct Hq as [Hc | Hn Hcr]; cbn; rewrite ?Hf;
           [ left; split; [reflexivity | exact Hnone]
           | destruct g, g0; cbn in *;
             first [ left; split; [reflexivity | exact Hnone]
                   | right; split; [reflexivity | discriminate] ] ]
       end.
Qed.

(** Over a lifetime that starts with the cache of a variant empty, that
    cache is filled at the end exactly when the factory of the variant has
    built a converter in the meantime. *)
Theorem cache_filled_iff_built (g : bool) (ccs : list CalculatorContext) :
  forall calc : Calculator,
    converter_ g calc = None ->
    (converter_ g (fst (run p ccs calc)) <> None <->
     count (is_Created g) (snd (run p ccs calc)) = 1%nat).
Proof.
  induction ccs as [|cc rest IH]; intros calc Hnone.
  - cbn. split; [congruence | discriminate].
  - pose proof (Process_built g cc calc Hnone) as Hstep.
    pose proof (run_constructs g rest (snd (fst (Process p cc calc)))) as (Hrest & _).
    pose proof (run_keeps_cached g rest (snd (fst (Process p cc calc)))) as Hkeep.
    specialize (IH (snd (fst (Process p cc calc)))).
    cbn [run].
    destruct (Process p cc calc) as [[o calc'] tr]. cbn [fst snd] in *.
    destruct (run p rest calc') as [calc'' tr'] eqn:Hrun. cbn [fst snd] in *.
    assert (Hle : (count (is_Created g) tr' <= count (is_Create g) tr')%nat)
      by apply count_Created_le_Create.
    destruct Hstep as [(H0 & Hn') | (H1 & Hs')].
    + specialize (IH Hn').
      destruct o as [[]|e|r]; cbn [fst snd]; rewrite ?count_app, H0; cbn.
      1-2: exact IH.
      split; [congruence | discriminate].
    + specialize (Hrest Hs'). specialize (Hkeep Hs').
      destruct o as [[]|e|r]; cbn [fst snd]; rewrite ?count_app, H1.
      1-2: split; [intros _; lia | intros _; exact Hkeep].
      split; [intros _; reflexivity | intros _; exact Hs'].
Qed.

End Properties.

(* ===================================================================== *)
(** ** Properties of [GetContract] *)
Section ContractProperties.

Variable p : Platform.

Lemma HasTag_In (tags : list string) (tag : string) :
  HasTag tags tag = true <-> In tag tags.
Proof.
  unfold HasTag. rewrite existsb_exists. split.
  - intros (x & Hx & Heq). apply String.eqb_eq in Heq. subst. exact Hx.
  - intros Hin. exists tag. split; [exact Hin | apply String.eqb_refl].
Qed.

Ltac in_events :=
  repeat match goal with
         | H : _ \/ _ |- _ => destruct H
         | H : False |- _ => contradiction
         | H : _ = _ |- _ =>
             first [ discriminate H | injection H as <- <- | injection H as <- ]
         end.

Ltac contract_cases cc :=
  unfold GetContract, contract_status;
  destruct cc as [ins outs gl metal]; cbn [Inputs_GetTags Outputs_GetTags
    GlCalculatorHelper_UpdateContract MPPMetalHelper_updateContract];
  destruct ins as [|i0 ins]; destruct outs as [|o0 outs];
  destruct (HasTag _ kOutputSizeTag) eqn:?;
  destruct (CanUseGpu p) eqn:?; destruct (MEDIAPIPE_DISABLE_GPU p) eqn:?;
  destruct (MEDIAPIPE_METAL_ENABLED p) eqn:?;
  destruct (gl true) eqn:?; destruct metal eqn:?; cbn.

(** [GetContract] returns OK exactly when the contract has some input tag
    and some output tag and every GPU helper it asks returns OK: the GL
    helper when [CanUseGpu()] holds and GPU is not disabled, the Metal
    helper when moreover Metal is enabled. *)
Theorem GetContract_ok_iff (cc : CalculatorContract) :
  contract_status (GetContract p cc) = OkStatus <->
  Inputs_GetTags cc <> [] /\
  Outputs_GetTags cc <> [] /\
  (CanUseGpu p = true -> MEDIAPIPE_DISABLE_GPU p = false ->
   GlCalculatorHelper_UpdateContract cc true = OkStatus /\
   (MEDIAPIPE_METAL_ENABLED p = true ->
    MPPMetalHelper_updateContract cc = OkStatus)).
Proof.
  contract_cases cc.
  all: split; [intros H; try discriminate H | intros (H1 & H2 & H3)].
  all: try (exfalso; apply H1; reflexivity).
  all: try (exfalso; apply H2; reflexivity).
  all: try reflexivity.
  all: try (repeat split; try discriminate; intros; try discriminate; auto).
  all: try (destruct H3 as [H3 H4]; [reflexivity | reflexivity |];
            try discriminate H3; specialize (H4 eq_refl); discriminate H4).
Qed.


(** When the contract has no input tag or no output tag, [GetContract]
    returns the [RET_CHECK] failure and declares nothing.  Otherwise it
    declares TENSORS as a vector of tensors and MASK as an image, it
    declares OUTPUT_SIZE (as a pair of ints) exactly when the contract has
    that input tag, and it declares nothing else. *)
Theorem GetContract_declarations (cc : CalculatorContract) :
  (Inputs_GetTags cc = [] \/ Outputs_GetTags cc = [] ->
   GetContract p cc = (NotOk RET_CHECK_code, [])) /\
  (Inputs_GetTags cc <> [] -> Outputs_GetTags cc <> [] ->
   let tr := snd (GetContract p cc) in
   In (Inputs_Tag_Set kTensorsTag VectorOfTensor) tr /\
   In (Outputs_Tag_Set kMaskTag ImageType) tr /\
   (In (Inputs_Tag_Set kOutputSizeTag PairOfInt) tr <->
    In kOutputSizeTag (Inputs_GetTags cc)) /\
   (forall tag t,
      In (Inputs_Tag_Set tag t) tr ->
      (tag, t) = (kTensorsTag, VectorOfTensor) \/
      (tag, t) = (kOutputSizeTag, PairOfInt)) /\
   (forall tag t,
      In (Outputs_Tag_Set tag t) tr -> (tag, t) = (kMaskTag, ImageType))).
Proof.
  split.
  - intros [H | H]; unfold GetContract; rewrite H; [reflexivity|].
    destruct (Inputs_GetTags cc); reflexivity.
  - intros Hin Hout. cbv zeta.
    rewrite <- HasTag_In.
    contract_cases cc; try (exfalso; apply Hin; reflexivity);
      try (exfalso; apply Hout; reflexivity).
    all: repeat match goal with |- _ /\ _ => split end.
    all: try solve [cbn; auto 10].
    all: try solve [split; intros H;
                    [ first [reflexivity | cbn in H; in_events]
                    | first [discriminate H | cbn; auto 10] ]].
    all: intros tag t H; cbn in H; in_events; auto.
Qed.

(** The GPU helpers.  The GL helper is asked (with the GPU requested as
    optional) exactly when both tag sets are non-empty, [CanUseGpu()] holds
    and GPU is not disabled; the Metal helper exactly when moreover Metal is
    enabled and the GL helper returned OK.  A helper that is asked and
    fails has its status returned, and every declaration stands before the
    first helper call. *)
Theorem GetContract_helpers (cc : CalculatorContract) :
  let tr := snd (GetContract p cc) in
  (forall b,
     In (GlCalculatorHelper_UpdateContract_call b) tr <->
     b = true /\ Inputs_GetTags cc <> [] /\ Outputs_GetTags cc <> [] /\
     CanUseGpu p = true /\ MEDIAPIPE_DISABLE_GPU p = false) /\
  (In MPPMetalHelper_updateContract_call tr <->
   Inputs_GetTags cc <> [] /\ Outputs_GetTags cc <> [] /\
   CanUseGpu p = true /\ MEDIAPIPE_DISABLE_GPU p = false /\
   MEDIAPIPE_METAL_ENABLED p = true /\
   GlCalculatorHelper_UpdateContract cc true = OkStatus) /\
  (forall c,
     In (GlCalculatorHelper_UpdateContract_call true) tr ->
     GlCalculatorHelper_UpdateContract cc true = Error c ->
     contract_status (GetContract p cc) = Error c) /\
  (forall c,
     In MPPMetalHelper_updateContract_call tr ->
     MPPMetalHelper_updateContract cc = Error c ->
     contract_status (GetContract p cc) = Error c) /\
  (forall l1 e l2,
     tr = l1 ++ e :: l2 -> is_helper_call e = true ->
     Forall (fun e' => is_helper_call e' = true) l2).
Proof.
  cbv zeta.
  assert (Hdecl : forall l1 e l2 (tr : list ContractEvent),
             tr = l1 ++ e :: l2 -> is_helper_call e = true ->
             (exists d h, tr = d ++ h /\
                          Forall (fun e' => is_helper_call e' = false) d /\
                          Forall (fun e' => is_helper_call e' = true) h) ->
             Forall (fun e' => is_helper_call e' = true) l2).
  { intros l1 e l2 tr -> He (d & h & Heq & Hd & Hh).
    revert l1 Heq. induction d as [|x d IH]; intros l1 Heq.
    - cbn in Heq. subst h. apply Forall_app in Hh as [_ Hh].
      inversion Hh; assumption.
    - inversion Hd as [|? ? Hx Hd']; subst.
      destruct l1 as [|y l1]; cbn in Heq; injection Heq as Hxy Heq.
      + subst x. congruence.
      + apply (IH Hd' l1 Heq). }
  split; [|split; [|split; [|split]]].
  5:{ intros l1 e l2 Heq He. apply (Hdecl l1 e l2 _ Heq He).
      clear.
      exists (filter (fun e' => negb (is_helper_call e')) (snd (GetContract p cc))),
             (filter is_helper_call (snd (GetContract p cc))).
      contract_cases cc.
      all: split; [reflexivity|]; split; repeat constructor. }
  - intros b. contract_cases cc.
    all: split;
      [ intros H; cbn in H; in_events;
        repeat split; first [discriminate | reflexivity]
      | intros (-> & H1 & H2 & H3 & H4);
        first [ discriminate
              | exfalso; apply H1; reflexivity
              | exfalso; apply H2; reflexivity
              | cbn; auto 10 ] ].
  - contract_cases cc.
    all: split;
      [ intros H; cbn in H; in_events;
        repeat split; first [discriminate | reflexivity]
      | intros (H1 & H2 & H3 & H4 & H5 & H6);
        first [ discriminate
              | exfalso; apply H1; reflexivity
              | exfalso; apply H2; reflexivity
              | cbn; auto 10 ] ].
  - intros c. contract_cases cc.
    all: intros H Hc; try discriminate Hc; try (injection Hc as <-);
      try reflexivity; cbn in H; in_events.
  - intros c. contract_cases cc.
    all: intros H Hc; try discriminate Hc; try (injection Hc as <-);
      try reflexivity; cbn in H; in_events.
Qed.

End ContractProperties.

(* ===================================================================== *)
(** ** The properties on concrete invocations *)

Import Examples.

(** C1 on the SOFTMAX invocation with a device tensor: GPU is selected. *)
Lemma backend_selection_witness :
  Inputs_TENSORS device_cc = Some [device_tensor] /\
  [device_tensor] <> [] /\
  exists use_gpu : bool,
    fst (fst (select_use_gpu (Image:=ExImage) gpu_build [device_tensor] softmax_calc))
      = Done use_gpu /\
    use_gpu = true.
Proof.
  assert (H1 : Inputs_TENSORS device_cc = Some [device_tensor]) by reflexivity.
  assert (H2 : [device_tensor] <> []) by discriminate.
  split; [exact H1|]. split; [exact H2|].
  destruct (@backend_selection ExConverter ExImage gpu_build device_cc
              [device_tensor] softmax_calc H1 H2) as (g & Hs & _ & Hg & _).
  exists g. split; [exact Hs | exact Hg].
Defined.

(** C2 on the SIGMOID invocation with a two-channel tensor. *)
Lemma validation_failure_witness :
  Inputs_TENSORS mismatch_cc = Some [two_channel_tensor] /\
  GetHwcFromDims (dims two_channel_tensor) = Value (256, 256, 2) /\
  returned (fst (fst (Process gpu_build mismatch_cc sigmoid_calc)))
    = Some (Error kInvalidArgument).
Proof.
  assert (H1 : Inputs_TENSORS mismatch_cc = Some [two_channel_tensor]) by reflexivity.
  assert (H2 : GetHwcFromDims (dims two_channel_tensor) = Value (256, 256, 2))
    by reflexivity.
  split; [exact H1|]. split; [exact H2|].
  destruct (@validation_failure ExConverter ExImage gpu_build mismatch_cc
              [two_channel_tensor] sigmoid_calc H1) as (tr & _ & Hr & _).
  - right. right. exists two_channel_tensor, [], 256, 256, 2.
    split; [reflexivity|]. split; [exact H2|]. cbn. lia.
  - exact Hr.
Defined.

(** C3 on three host invocations, and on a failed construction followed by
    a host invocation. *)
Lemma converter_constructed_at_most_once_witness :
  compiled_in gpu_build false = true /\
  converter_ false sigmoid_calc = None /\
  count (is_Create false) (snd (run gpu_build [host_cc; host_cc; host_cc] sigmoid_calc))
    = 1%nat /\
  count (is_Convert false) (snd (run gpu_build [host_cc; host_cc; host_cc] sigmoid_calc))
    = 3%nat /\
  count (is_Create false) (snd (run gpu_build [failing_cc; host_cc] sigmoid_calc))
    = 2%nat.
Proof.
  assert (H1 : compiled_in gpu_build false = true) by reflexivity.
  assert (H2 : converter_ false sigmoid_calc = None) by reflexivity.
  split; [exact H1|]. split; [exact H2|].
  destruct (@converter_constructed_at_most_once ExConverter ExImage gpu_build
              false sigmoid_calc) as (_ & Hn & Hretry).
  assert (Hb : builds gpu_build false (options_ sigmoid_calc) host_cc = true)
    by reflexivity.
  assert (Hs : selects gpu_build false (options_ sigmoid_calc) host_cc = true)
    by reflexivity.
  assert (Hf : selects gpu_build false (options_ sigmoid_calc) failing_cc = true)
    by reflexivity.
  assert (Hall : Forall (fun cc' =>
                           selects gpu_build false (options_ sigmoid_calc) cc' = true)
                   [host_cc; host_cc; host_cc])
    by (repeat constructor).
  destruct (Hn host_cc [host_cc; host_cc] H1 H2 Hb Hall) as (Hcreate & Hconvert).
  split; [exact Hcreate|]. split; [exact Hconvert|].
  destruct (Hretry failing_cc host_cc kUnavailable H1 H2 Hf Hs eq_refl)
    as (tr & _ & _ & _ & Htwo).
  exact Htwo.
Defined.

(** C4 on a shape with batch 2 and on a shape of rank 2. *)
Lemma GetHwcFromDims_spec_witness :
  GetHwcFromDims [2; 3; 4; 5] = NotOk kInvalidArgument /\
  GetHwcFromDims [7; 9] = NotOk kInvalidArgument.
Proof.
  split.
  - destruct (GetHwcFromDims_spec [2; 3; 4; 5]) as (_ & Hbatch & _).
    apply (Hbatch 2 3 4 5); [reflexivity | lia].
  - destruct (GetHwcFromDims_spec [7; 9]) as (_ & _ & Hrank).
    apply Hrank; cbn; lia.
Defined.

(** C6 on an invocation without a batch. *)
Lemma Process_without_batch_witness :
  Inputs_TENSORS idle_cc = None /\
  Process gpu_build idle_cc sigmoid_calc = (Done tt, sigmoid_calc, []).
Proof.
  assert (H1 : Inputs_TENSORS idle_cc = None) by reflexivity.
  split; [exact H1|].
  apply (@Process_without_batch ExConverter ExImage gpu_build idle_cc sigmoid_calc H1).
Defined.



(** C7, as the spec states it, fails: on the SIGMOID invocation with a
    two-channel tensor the log opens with the two selection calls, and the
    validation that fails comes after them. *)
Lemma validation_first_counterexample :
  Inputs_TENSORS mismatch_cc = Some [two_channel_tensor] /\
  snd (Process gpu_build mismatch_cc sigmoid_calc) =
    [CanUseGpu_call; ready_on_gpu_call 0; RET_CHECK_not_empty;
     RET_CHECK_element_type; GetHwcFromDims_call InValidation;
     RET_CHECK_EQ_channels 2 1] /\
  ~ validation_first (snd (Process gpu_build mismatch_cc sigmoid_calc)).
Proof.
  split; [reflexivity|]. split; [reflexivity|].
  intros [Hvs _].
  specialize (Hvs [CanUseGpu_call; ready_on_gpu_call 0] RET_CHECK_not_empty
                  [RET_CHECK_element_type; GetHwcFromDims_call InValidation;
                   RET_CHECK_EQ_channels 2 1] eq_refl eq_refl).
  inversion Hvs as [|e l Hsel _]; subst. apply Hsel. reflexivity.
Qed.

(** C7, as amended, on the SIGMOID invocation with a two-channel tensor. *)
Lemma selection_then_validation_then_acquisition_witness :
  Inputs_TENSORS mismatch_cc = Some [two_channel_tensor] /\
  selection_first (snd (Process gpu_build mismatch_cc sigmoid_calc)) /\
  fst (fst (Process gpu_build mismatch_cc sigmoid_calc)) = Failed kInvalidArgument /\
  snd (fst (Process gpu_build mismatch_cc sigmoid_calc)) = sigmoid_calc.
Proof.
  assert (H1 : Inputs_TENSORS mismatch_cc = Some [two_channel_tensor]) by reflexivity.
  split; [exact H1|].
  destruct (@selection_then_validation_then_acquisition ExConverter ExImage
              gpu_build mismatch_cc [two_channel_tensor] sigmoid_calc H1)
    as (Hord & _ & _ & Hfail).
  split; [exact Hord|].
  destruct (Hfail kInvalidArgument eq_refl) as (Ho & Hc & _).
  split; [exact Ho | exact Hc].
Defined.

(** C8 on a host invocation in a build without OpenCV. *)
Lemma backend_not_compiled_in_witness :
  compiled_in no_opencv_build false = false /\
  InitConverterIfNecessary no_opencv_build false host_cc sigmoid_calc =
    (Failed kFailedPrecondition, sigmoid_calc, []) /\
  exists tr,
    Process no_opencv_build host_cc sigmoid_calc =
      (Failed kFailedPrecondition, sigmoid_calc, tr).
Proof.
  assert (H1 : compiled_in no_opencv_build false = false) by reflexivity.
  split; [exact H1|].
  destruct (@backend_not_compiled_in ExConverter ExImage no_opencv_build false
              host_cc sigmoid_calc H1) as (Hinit & Hproc).
  split; [exact Hinit|].
  destruct (Hproc [host_tensor] eq_refl eq_refl) as (o & tr & Hrun & _ & _ & Ho).
  exists tr. rewrite Hrun.
  assert (Hv : valid (activation (options_ sigmoid_calc)) [host_tensor] = true)
    by reflexivity.
  assert (Hsz : Inputs_OUTPUT_SIZE host_cc <> Connected None) by discriminate.
  rewrite (Ho Hv Hsz). reflexivity.
Defined.

(** C10: [Open] with SIGMOID succeeds, and the two-channel tensor is
    refused by the [Process] that follows. *)
Lemma Open_always_succeeds_witness :
  returned (fst (fst (Open (Converter:=ExConverter) mismatch_cc new_Calculator)))
    = Some OkStatus /\
  returned (fst (fst (Process gpu_build mismatch_cc
                        (snd (fst (Open mismatch_cc new_Calculator))))))
    = Some (Error kInvalidArgument).
Proof.
  destruct (@Open_always_succeeds ExConverter ExImage gpu_build mismatch_cc
              new_Calculator) as (_ & Hok & Hlater).
  split; [exact Hok|].
  apply (Hlater mismatch_cc two_channel_tensor [] 256 256 2);
    [reflexivity | reflexivity | cbn; lia].
Defined.

(* ===================================================================== *)
(** ** The further properties on concrete inputs *)

(** [GetContract] on the full contract in a Metal build: OK. *)
Lemma GetContract_ok_iff_witness :
  contract_status (GetContract metal_build full_contract) = OkStatus.
Proof.
  apply (proj2 (GetContract_ok_iff metal_build full_contract)).
  split; [discriminate|]. split; [discriminate|].
  intros _ _. split; [reflexivity | intros _; reflexivity].
Defined.

(** The declarations of the full contract. *)
Lemma GetContract_declarations_witness :
  Inputs_GetTags full_contract <> [] /\
  Outputs_GetTags full_contract <> [] /\
  In (Inputs_Tag_Set kOutputSizeTag PairOfInt)
     (snd (GetContract gpu_build full_contract)).
Proof.
  assert (H1 : Inputs_GetTags full_contract <> []) by discriminate.
  assert (H2 : Outputs_GetTags full_contract <> []) by discriminate.
  split; [exact H1|]. split; [exact H2|].
  destruct (GetContract_declarations gpu_build full_contract) as (_ & Hdecl).
  destruct (Hdecl H1 H2) as (_ & _ & Hsize & _).
  apply Hsize. right. left. reflexivity.
Defined.

(** A Metal helper that fails makes [GetContract] fail with its status. *)
Lemma GetContract_helpers_witness :
  In MPPMetalHelper_updateContract_call
     (snd (GetContract metal_build metal_failing_contract)) /\
  contract_status (GetContract metal_build metal_failing_contract)
    = Error kUnavailable.
Proof.
  destruct (GetContract_helpers metal_build metal_failing_contract)
    as (_ & Hmetal & _ & Hfail & _).
  assert (Hcall : In MPPMetalHelper_updateContract_call
                     (snd (GetContract metal_build metal_failing_contract))).
  { apply Hmetal. repeat split; try discriminate; reflexivity. }
  split; [exact Hcall|].
  apply (Hfail kUnavailable Hcall). reflexivity.
Defined.

(** A second call after a factory that failed asks the factory again; a
    second call after a converter was built does nothing. *)
Lemma InitConverterIfNecessary_again_witness :
  compiled_in gpu_build false = true /\
  converter_ false
    (snd (fst (InitConverterIfNecessary gpu_build false failing_cc sigmoid_calc)))
    = None /\
  snd (InitConverterIfNecessary gpu_build false host_cc
         (snd (fst (InitConverterIfNecessary gpu_build false failing_cc
                      sigmoid_calc))))
    = [Create_call CreateOpenCvConverter (Value (Some CreateOpenCvConverter))] /\
  InitConverterIfNecessary gpu_build false failing_cc
    (snd (fst (InitConverterIfNecessary gpu_build false host_cc sigmoid_calc)))
    = (Done tt,
       snd (fst (InitConverterIfNecessary gpu_build false host_cc sigmoid_calc)),
       []).
Proof.
  assert (H1 : compiled_in gpu_build false = true) by reflexivity.
  assert (H2 : converter_ false
                 (snd (fst (InitConverterIfNecessary gpu_build false failing_cc
                              sigmoid_calc))) = None) by reflexivity.
  split; [exact H1|]. split; [exact H2|].
  split.
  - destruct (@InitConverterIfNecessary_again ExConverter ExImage gpu_build false
                failing_cc host_cc sigmoid_calc) as (_ & Hretry & _).
    destruct (Hretry H1 H2) as (_ & _ & Hsecond). exact Hsecond.
  - destruct (@InitConverterIfNecessary_again ExConverter ExImage gpu_build false
                host_cc failing_cc sigmoid_calc) as (Hkept & _).
    apply Hkept; [reflexivity | discriminate].
Defined.

(** [InitConverterIfNecessary] returns OK on a factory that returns a null
    pointer, and leaves the cache empty. *)
Lemma InitConverterIfNecessary_post_witness :
  fst (fst (InitConverterIfNecessary gpu_build false null_cc sigmoid_calc)) = Done tt /\
  converter_ false
    (snd (fst (InitConverterIfNecessary gpu_build false null_cc sigmoid_calc)))
    = None.
Proof.
  assert (H1 : fst (fst (InitConverterIfNecessary gpu_build false null_cc
                           sigmoid_calc)) = Done tt) by reflexivity.
  split; [exact H1|].
  destruct (@InitConverterIfNecessary_post ExConverter ExImage gpu_build false
              null_cc sigmoid_calc) as (Hpost & _).
  apply (proj2 (Hpost H1)). split; reflexivity.
Defined.

(** A CPU converter cached by a host invocation survives a device
    invocation. *)
Lemma run_keeps_options_and_converters_witness :
  converter_ false (set_converter_ false (Some CreateOpenCvConverter) softmax_calc)
    = Some CreateOpenCvConverter /\
  converter_ false
    (fst (run gpu_build [device_cc; device_cc]
            (set_converter_ false (Some CreateOpenCvConverter) softmax_calc)))
    = Some CreateOpenCvConverter.
Proof.
  assert (H1 : converter_ false
                 (set_converter_ false (Some CreateOpenCvConverter) softmax_calc)
               = Some CreateOpenCvConverter) by reflexivity.
  split; [exact H1|].
  destruct (@run_keeps_options_and_converters ExConverter ExImage gpu_build
              [device_cc; device_cc]
              (set_converter_ false (Some CreateOpenCvConverter) softmax_calc))
    as (_ & Hkeep).
  exact (Hkeep false CreateOpenCvConverter H1).
Defined.

(** The mask of the device invocation carries the timestamp of its input. *)
Lemma mask_emitted_iff_ok_witness :
  In (Outputs_MASK_Add (64, 64) 0) (snd (Process gpu_build device_cc softmax_calc)) /\
  0 = InputTimestamp device_cc.
Proof.
  assert (H1 : In (Outputs_MASK_Add (64, 64) 0)
                  (snd (Process gpu_build device_cc softmax_calc)))
    by (cbn; intuition).
  split; [exact H1|].
  destruct (@mask_emitted_iff_ok ExConverter ExImage gpu_build device_cc
              softmax_calc) as (_ & _ & Hmask).
  destruct (Hmask (64, 64) 0 H1) as (Ht & _). exact Ht.
Defined.

(** A [Convert] that fails right after the construction of its converter:
    the failure is returned and the converter stays cached. *)
Lemma Convert_on_cached_converter_witness :
  exists calc' tr,
    Process gpu_build convert_failing_cc sigmoid_calc
      = (Failed kInternal, calc', tr) /\
    In (Convert_call false CreateOpenCvConverter [host_tensor] 256 256) tr /\
    converter_ false calc' = Some CreateOpenCvConverter.
Proof.
  eexists. eexists. split; [reflexivity|].
  assert (H1 : In (Convert_call false CreateOpenCvConverter [host_tensor] 256 256)
                  (snd (Process gpu_build convert_failing_cc sigmoid_calc)))
    by (cbn; intuition).
  split; [exact H1|].
  destruct (@Convert_on_cached_converter ExConverter ExImage gpu_build
              convert_failing_cc sigmoid_calc _ _ _ false CreateOpenCvConverter
              [host_tensor] 256 256 eq_refl H1) as (_ & _ & Hc & _).
  exact Hc.
Defined.


(** The failure of the SIGMOID invocation with a two-channel tensor has a
    batch behind it. *)
Lemma Process_failure_causes_witness :
  exists calc' tr,
    Process gpu_build mismatch_cc sigmoid_calc = (Failed kInvalidArgument, calc', tr) /\
    exists ts, Inputs_TENSORS mismatch_cc = Some ts.
Proof.
  eexists. eexists. split; [reflexivity|].
  destruct (@Process_failure_causes ExConverter ExImage gpu_build mismatch_cc
              sigmoid_calc _ kInvalidArgument _ eq_refl) as (ts & Hts & _).
  exists ts. exact Hts.
Defined.

(** The factory call of the first host invocation. *)
Lemma Create_call_conditions_witness :
  In (Create_call CreateOpenCvConverter (Value (Some CreateOpenCvConverter)))
     (snd (Process gpu_build host_cc sigmoid_calc)) /\
  converter_ false sigmoid_calc = None.
Proof.
  assert (H1 : In (Create_call CreateOpenCvConverter (Value (Some CreateOpenCvConverter)))
                  (snd (Process gpu_build host_cc sigmoid_calc)))
    by (cbn; intuition).
  split; [exact H1|].
  destruct (@Create_call_conditions ExConverter ExImage gpu_build host_cc
              sigmoid_calc _ _ H1) as (ts & Hts & _ & _ & Hnone & _).
  assert (Hts' : Inputs_TENSORS host_cc = Some [host_tensor]) by reflexivity.
  rewrite Hts' in Hts. injection Hts as <-. exact Hnone.
Defined.

(** After a failed construction followed by a host invocation the CPU cache
    is filled and one converter has been built. *)
Lemma cache_filled_iff_built_witness :
  converter_ false sigmoid_calc = None /\
  converter_ false (fst (run gpu_build [failing_cc; host_cc] sigmoid_calc)) <> None.
Proof.
  assert (H1 : converter_ false (sigmoid_calc : Calculator ExConverter) = None)
    by reflexivity.
  split; [exact H1|].
  apply (proj2 (@cache_filled_iff_built ExConverter ExImage gpu_build false
                  [failing_cc; host_cc] sigmoid_calc H1)).
  reflexivity.
Defined.
